(** * X402 demo: the on-chain billing ledger and the gateway's request check

    A shallow embedding of

    - [contracts/X402Billing.sol]: the prepayment / usage / revenue ledger
      (registerApi, updateApiConfig, prepay, reportUsage, settleUsage,
      withdrawProviderRevenue), and
    - [backend/server.js]: [verifySignedRequest], the EIP-712 request check
      run by the gateway before it meters a call,

    followed by the properties of the two that the specification states. *)

From stdpp Require Import gmap strings list.
From Stdlib Require Import ZArith Lia QArith Qround Ascii.

Open Scope Z_scope.

(** ** Solidity value types

    [address], [bytes32] and [uint256] are all carried by [Z]; the ABI
    decoder only ever hands well-ranged values to a function, and every
    arithmetic operation of the contract is checked (pragma ^0.8.20), so the
    upper bound appears exactly where the compiler inserts an overflow
    check. *)

Abbreviation address := Z (only parsing).
Abbreviation bytes32 := Z (only parsing).
Abbreviation uint256 := Z (only parsing).

Definition MAX_UINT256 : Z := 2 ^ 256 - 1.

(** [struct ApiConfig] *)
Module ApiConfig.
Record t := mk {
  provider : address;
  paymentToken : address;
  pricePerUnit : uint256;
  metadataURI : string;
  active : bool
}.

(** The value an unwritten mapping slot reads as. *)
Definition zero : t := mk 0 0 0 "" false.

Definition set_provider (v : address) (c : t) : t :=
  mk v (paymentToken c) (pricePerUnit c) (metadataURI c) (active c).
Definition set_paymentToken (v : address) (c : t) : t :=
  mk (provider c) v (pricePerUnit c) (metadataURI c) (active c).
Definition set_pricePerUnit (v : uint256) (c : t) : t :=
  mk (provider c) (paymentToken c) v (metadataURI c) (active c).
Definition set_metadataURI (v : string) (c : t) : t :=
  mk (provider c) (paymentToken c) (pricePerUnit c) v (active c).
Definition set_active (v : bool) (c : t) : t :=
  mk (provider c) (paymentToken c) (pricePerUnit c) (metadataURI c) v.
End ApiConfig.

(** [enum UsageStatus { None, Reported, Settled }] *)
Module UsageStatus.
Inductive t := None | Reported | Settled.

Definition eqb (a b : t) : bool :=
  match a, b with
  | None, None | Reported, Reported | Settled, Settled => true
  | _, _ => false
  end.

(** Position of a status on the line None, Reported, Settled. *)
Definition rank (a : t) : nat :=
  match a with None => 0 | Reported => 1 | Settled => 2 end.
End UsageStatus.

(** [struct UsageRecord] *)
Module UsageRecord.
Record t := mk {
  apiId : bytes32;
  consumer : address;
  units : uint256;
  pricePerUnitSnapshot : uint256;
  paymentToken : address;
  status : UsageStatus.t;
  offchainRef : string
}.

Definition zero : t := mk 0 0 0 0 0 UsageStatus.None "".

Definition set_apiId (v : bytes32) (r : t) : t :=
  mk v (consumer r) (units r) (pricePerUnitSnapshot r) (paymentToken r)
     (status r) (offchainRef r).
Definition set_consumer (v : address) (r : t) : t :=
  mk (apiId r) v (units r) (pricePerUnitSnapshot r) (paymentToken r)
     (status r) (offchainRef r).
Definition set_units (v : uint256) (r : t) : t :=
  mk (apiId r) (consumer r) v (pricePerUnitSnapshot r) (paymentToken r)
     (status r) (offchainRef r).
Definition set_pricePerUnitSnapshot (v : uint256) (r : t) : t :=
  mk (apiId r) (consumer r) (units r) v (paymentToken r)
     (status r) (offchainRef r).
Definition set_paymentToken (v : address) (r : t) : t :=
  mk (apiId r) (consumer r) (units r) (pricePerUnitSnapshot r) v
     (status r) (offchainRef r).
Definition set_status (v : UsageStatus.t) (r : t) : t :=
  mk (apiId r) (consumer r) (units r) (pricePerUnitSnapshot r)
     (paymentToken r) v (offchainRef r).
Definition set_offchainRef (v : string) (r : t) : t :=
  mk (apiId r) (consumer r) (units r) (pricePerUnitSnapshot r)
     (paymentToken r) (status r) v.
End UsageRecord.

(** The events of the contract, with the arguments in declaration order. *)
Inductive Event :=
| ApiRegistered (apiId : bytes32) (provider paymentToken : address)
                (pricePerUnit : uint256) (metadataURI : string)
| ApiConfigUpdated (apiId : bytes32) (provider : address)
                   (pricePerUnit : uint256) (metadataURI : string) (active : bool)
| UsagePrepaid (apiId : bytes32) (payer consumer : address)
               (units amount : uint256) (paymentToken : address)
| UsageReported (apiId usageId : bytes32) (consumer : address)
                (units : uint256) (reporter : address) (offchainRef : string)
| UsageSettled (apiId usageId : bytes32) (provider : address)
               (units amount : uint256) (paymentToken : address)
| ProviderWithdraw (apiId : bytes32) (provider : address)
                   (amount : uint256) (paymentToken : address).

(** The four storage mappings. A Solidity mapping is total: a key that was
    never written reads as the zero value, which the getters below spell
    out. *)
Record Storage := mkStorage {
  _apis : gmap Z ApiConfig.t;
  _prepaidUnits : gmap (Z * Z) Z;
  _providerBalances : gmap Z Z;
  _usageRecords : gmap Z UsageRecord.t
}.

Definition empty_storage : Storage := mkStorage ∅ ∅ ∅ ∅.

(** ** The external token

    [interface IERC20]: the contract only knows the payment token through
    this interface. [T] is the state of all token contracts; a call either
    returns a boolean together with the tokens' new state, or reverts. The
    first argument is the token contract called, the second the caller (the
    token's [msg.sender]). A token does not call back into the ledger. *)
Inductive CallResult (T : Type) :=
| Returned (b : bool) (t : T)
| CallReverted.
Arguments Returned {T} b t.
Arguments CallReverted {T}.

Class IERC20 (T : Type) := {
  transferFrom : address -> address -> address -> address -> uint256 -> T -> CallResult T;
  transfer : address -> address -> address -> uint256 -> T -> CallResult T;
  balanceOf : address -> address -> T -> uint256
}.

(** Transaction context: [msg.sender], [block.timestamp], [block.number]. *)
Record Env := mkEnv {
  msg_sender : address;
  block_timestamp : uint256;
  block_number : uint256
}.

(** Why a call stopped: a failed [require] with its reason string, a
    compiler-inserted panic (0x11 is arithmetic overflow), or a revert
    bubbling up from the token. *)
Inductive Failure :=
| Error (reason : string)
| Panic (code : Z)
| Bubbled.

(** Outcome of a whole transaction. *)
Inductive Outcome (A : Type) :=
| Success (a : A)
| Reverted (f : Failure).
Arguments Success {A} a.
Arguments Reverted {A} f.

(** [abi.encodePacked] pieces: a big-endian integer on [n] bytes. *)
Definition byte_of_Z (z : Z) : Byte.byte :=
  default Byte.x00 (Byte.of_N (Z.to_N (z mod 256))).

Fixpoint be_bytes (n : nat) (z : Z) : list Byte.byte :=
  match n with
  | O => []
  | S n' => be_bytes n' (z / 256) ++ [byte_of_Z z]
  end.

(** ** The contract *)
Module X402Billing.

Section Contract.
Context {T : Type} `{!IERC20 T}.

(** [address(this)], and the [keccak256] builtin. *)
Variable this : address.
Variable keccak256 : list Byte.byte -> bytes32.

(** Everything a transaction can change: the contract's storage, the
    tokens' state and the event log. *)
Record World := mkWorld {
  store : Storage;
  tokens : T;
  log : list Event
}.

(** *** Execution monad

    A function body threads the world and may stop with a [Failure]; the
    world it returns then is the one reached when it stopped. [transact]
    is the EVM's rule for a top-level call: on failure every write of the
    call is discarded. *)
Definition M (A : Type) : Type := World -> (Failure + A) * World.

Definition ret {A} (a : A) : M A := fun w => (inr a, w).

Definition bind {A B} (m : M A) (k : A -> M B) : M B := fun w =>
  match m w with
  | (inr a, w') => k a w'
  | (inl f, w') => (inl f, w')
  end.

Definition throw {A} (f : Failure) : M A := fun w => (inl f, w).

Definition require (c : bool) (reason : string) : M unit :=
  if c then ret tt else throw (Error reason).

Definition sload {A} (f : Storage -> A) : M A := fun w => (inr (f (store w)), w).

Definition sstore (f : Storage -> Storage) : M unit := fun w =>
  (inr tt, mkWorld (f (store w)) (tokens w) (log w)).

Definition emit (ev : Event) : M unit := fun w =>
  (inr tt, mkWorld (store w) (tokens w) (log w ++ [ev])).

Definition transact {A} (m : M A) (w : World) : Outcome A * World :=
  match m w with
  | (inr a, w') => (Success a, w')
  | (inl f, _) => (Reverted f, w)
  end.

Local Notation "x <- m ;; k" := (bind m (fun x => k))
  (at level 100, m at next level, right associativity).
Local Notation "m ;;; k" := (bind m (fun _ => k))
  (at level 100, right associativity).

(** Checked arithmetic of Solidity 0.8. *)
Definition checked_add (a b : uint256) : M uint256 :=
  if a + b <=? MAX_UINT256 then ret (a + b) else throw (Panic 17).
Definition checked_sub (a b : uint256) : M uint256 :=
  if b <=? a then ret (a - b) else throw (Panic 17).
Definition checked_mul (a b : uint256) : M uint256 :=
  if a * b <=? MAX_UINT256 then ret (a * b) else throw (Panic 17).

(** Reads of the mappings. *)
Definition apis (apiId : bytes32) (s : Storage) : ApiConfig.t :=
  default ApiConfig.zero (_apis s !! apiId).
Definition prepaid (apiId : bytes32) (consumer : address) (s : Storage) : uint256 :=
  default 0 (_prepaidUnits s !! (apiId, consumer)).
Definition providerBalances (apiId : bytes32) (s : Storage) : uint256 :=
  default 0 (_providerBalances s !! apiId).
Definition usageRecords (usageId : bytes32) (s : Storage) : UsageRecord.t :=
  default UsageRecord.zero (_usageRecords s !! usageId).

(** Writes: a whole slot, or one field through a storage pointer. *)
Definition write_api (apiId : bytes32) (f : ApiConfig.t -> ApiConfig.t) : M unit :=
  sstore (fun s => mkStorage (<[apiId := f (apis apiId s)]> (_apis s))
                     (_prepaidUnits s) (_providerBalances s) (_usageRecords s)).
Definition write_prepaid (apiId : bytes32) (consumer : address) (v : uint256) : M unit :=
  sstore (fun s => mkStorage (_apis s) (<[(apiId, consumer) := v]> (_prepaidUnits s))
                     (_providerBalances s) (_usageRecords s)).
Definition write_providerBalance (apiId : bytes32) (v : uint256) : M unit :=
  sstore (fun s => mkStorage (_apis s) (_prepaidUnits s)
                     (<[apiId := v]> (_providerBalances s)) (_usageRecords s)).
Definition write_usage (usageId : bytes32) (f : UsageRecord.t -> UsageRecord.t) : M unit :=
  sstore (fun s => mkStorage (_apis s) (_prepaidUnits s) (_providerBalances s)
                     (<[usageId := f (usageRecords usageId s)]> (_usageRecords s))).

(** Calls of the token, made by the contract. *)
Definition call_transferFrom (token from to : address) (value : uint256) : M bool :=
  fun w =>
    match transferFrom token this from to value (tokens w) with
    | Returned b t' => (inr b, mkWorld (store w) t' (log w))
    | CallReverted => (inl Bubbled, w)
    end.
Definition call_transfer (token to : address) (value : uint256) : M bool :=
  fun w =>
    match transfer token this to value (tokens w) with
    | Returned b t' => (inr b, mkWorld (store w) t' (log w))
    | CallReverted => (inl Bubbled, w)
    end.

(** [modifier onlyProvider(bytes32 apiId)] *)
Definition onlyProvider (e : Env) (apiId : bytes32) : M unit :=
  p <- sload (fun s => ApiConfig.provider (apis apiId s)) ;;
  require (p =? msg_sender e) "Not API provider".

(** The view functions. *)
Definition getApiConfig (apiId : bytes32) (w : World) : ApiConfig.t :=
  apis apiId (store w).
Definition prepaidUnits (apiId : bytes32) (consumer : address) (w : World) : uint256 :=
  prepaid apiId consumer (store w).
Definition providerBalance (apiId : bytes32) (w : World) : uint256 :=
  providerBalances apiId (store w).
Definition getUsage (usageId : bytes32) (w : World) : UsageRecord.t :=
  usageRecords usageId (store w).

Definition registerApi (e : Env) (apiId : bytes32) (paymentToken : address)
    (pricePerUnit : uint256) (metadataURI : string) : M unit :=
  cfg <- sload (apis apiId) ;;
  require (ApiConfig.provider cfg =? 0) "API already exists" ;;;
  require (negb (paymentToken =? 0)) "Invalid payment token" ;;;
  require (0 <? pricePerUnit) "Invalid price" ;;;
  write_api apiId (ApiConfig.set_provider (msg_sender e)) ;;;
  write_api apiId (ApiConfig.set_paymentToken paymentToken) ;;;
  write_api apiId (ApiConfig.set_pricePerUnit pricePerUnit) ;;;
  write_api apiId (ApiConfig.set_metadataURI metadataURI) ;;;
  write_api apiId (ApiConfig.set_active true) ;;;
  emit (ApiRegistered apiId (msg_sender e) paymentToken pricePerUnit metadataURI).

Definition updateApiConfig (e : Env) (apiId : bytes32) (pricePerUnit : uint256)
    (metadataURI : string) (active : bool) : M unit :=
  onlyProvider e apiId ;;;
  cfg <- sload (apis apiId) ;;
  require (negb (ApiConfig.provider cfg =? 0)) "API not found" ;;;
  write_api apiId (ApiConfig.set_pricePerUnit pricePerUnit) ;;;
  write_api apiId (ApiConfig.set_metadataURI metadataURI) ;;;
  write_api apiId (ApiConfig.set_active active) ;;;
  p <- sload (fun s => ApiConfig.provider (apis apiId s)) ;;
  emit (ApiConfigUpdated apiId p pricePerUnit metadataURI active).

Definition prepay (e : Env) (apiId : bytes32) (units : uint256)
    (consumer : address) : M unit :=
  cfg <- sload (apis apiId) ;;
  require (negb (ApiConfig.provider cfg =? 0)) "API not found" ;;;
  require (ApiConfig.active cfg) "API not active" ;;;
  require (0 <? units) "Units must be > 0" ;;;
  require (negb (consumer =? 0)) "Invalid consumer" ;;;
  amount <- checked_mul (ApiConfig.pricePerUnit cfg) units ;;
  ok <- call_transferFrom (ApiConfig.paymentToken cfg) (msg_sender e) this amount ;;
  require ok "Token transfer failed" ;;;
  old <- sload (prepaid apiId consumer) ;;
  new <- checked_add old units ;;
  write_prepaid apiId consumer new ;;;
  emit (UsagePrepaid apiId (msg_sender e) consumer units amount
          (ApiConfig.paymentToken cfg)).

(** [abi.encodePacked(apiId, consumer, units, offchainRef,
    block.timestamp, block.number)] *)
Definition encodePacked (e : Env) (apiId : bytes32) (consumer : address)
    (units : uint256) (offchainRef : string) : list Byte.byte :=
  be_bytes 32 apiId ++ be_bytes 20 consumer ++ be_bytes 32 units
    ++ String.list_byte_of_string offchainRef
    ++ be_bytes 32 (block_timestamp e) ++ be_bytes 32 (block_number e).

Definition reportUsage (e : Env) (apiId : bytes32) (consumer : address)
    (units : uint256) (offchainRef : string) : M bytes32 :=
  cfg <- sload (apis apiId) ;;
  require (negb (ApiConfig.provider cfg =? 0)) "API not found" ;;;
  require (0 <? units) "Units must be > 0" ;;;
  bal <- sload (prepaid apiId consumer) ;;
  require (units <=? bal) "Insufficient prepaid units" ;;;
  old <- sload (prepaid apiId consumer) ;;
  new <- checked_sub old units ;;
  write_prepaid apiId consumer new ;;;
  let usageId := keccak256 (encodePacked e apiId consumer units offchainRef) in
  rec <- sload (usageRecords usageId) ;;
  require (UsageStatus.eqb (UsageRecord.status rec) UsageStatus.None)
    "Usage already exists" ;;;
  write_usage usageId (UsageRecord.set_apiId apiId) ;;;
  write_usage usageId (UsageRecord.set_consumer consumer) ;;;
  write_usage usageId (UsageRecord.set_units units) ;;;
  write_usage usageId (UsageRecord.set_pricePerUnitSnapshot (ApiConfig.pricePerUnit cfg)) ;;;
  write_usage usageId (UsageRecord.set_paymentToken (ApiConfig.paymentToken cfg)) ;;;
  write_usage usageId (UsageRecord.set_status UsageStatus.Reported) ;;;
  write_usage usageId (UsageRecord.set_offchainRef offchainRef) ;;;
  emit (UsageReported apiId usageId consumer units (msg_sender e) offchainRef) ;;;
  ret usageId.

(** [rec] is a storage pointer; the function writes its status only, and
    last, so the fields it reads afterwards are those read at the start. *)
Definition settleUsage (e : Env) (usageId : bytes32) : M unit :=
  rec <- sload (usageRecords usageId) ;;
  require (UsageStatus.eqb (UsageRecord.status rec) UsageStatus.Reported)
    "Usage not reportable/settleable" ;;;
  cfg <- sload (apis (UsageRecord.apiId rec)) ;;
  require (negb (ApiConfig.provider cfg =? 0)) "API not found" ;;;
  amount <- checked_mul (UsageRecord.units rec) (UsageRecord.pricePerUnitSnapshot rec) ;;
  old <- sload (providerBalances (UsageRecord.apiId rec)) ;;
  new <- checked_add old amount ;;
  write_providerBalance (UsageRecord.apiId rec) new ;;;
  write_usage usageId (UsageRecord.set_status UsageStatus.Settled) ;;;
  emit (UsageSettled (UsageRecord.apiId rec) usageId (ApiConfig.provider cfg)
          (UsageRecord.units rec) amount (UsageRecord.paymentToken rec)).

Definition withdrawProviderRevenue (e : Env) (apiId : bytes32)
    (amount : uint256) (to : address) : M unit :=
  onlyProvider e apiId ;;;
  require (negb (to =? 0)) "Invalid to" ;;;
  bal <- sload (providerBalances apiId) ;;
  require ((0 <? amount) && (amount <=? bal)) "Invalid amount" ;;;
  new <- checked_sub bal amount ;;
  write_providerBalance apiId new ;;;
  token <- sload (fun s => ApiConfig.paymentToken (apis apiId s)) ;;
  ok <- call_transfer token to amount ;;
  require ok "Token transfer failed" ;;;
  emit (ProviderWithdraw apiId (msg_sender e) amount token).

(** *** Transactions and traces *)
Inductive Call :=
| CallRegisterApi (apiId : bytes32) (paymentToken : address)
                  (pricePerUnit : uint256) (metadataURI : string)
| CallUpdateApiConfig (apiId : bytes32) (pricePerUnit : uint256)
                      (metadataURI : string) (active : bool)
| CallPrepay (apiId : bytes32) (units : uint256) (consumer : address)
| CallReportUsage (apiId : bytes32) (consumer : address) (units : uint256)
                  (offchainRef : string)
| CallSettleUsage (usageId : bytes32)
| CallWithdrawProviderRevenue (apiId : bytes32) (amount : uint256) (to : address).

Definition body (e : Env) (c : Call) : M unit :=
  match c with
  | CallRegisterApi a tok p m => registerApi e a tok p m
  | CallUpdateApiConfig a p m act => updateApiConfig e a p m act
  | CallPrepay a u c => prepay e a u c
  | CallReportUsage a c u r => (_ <- reportUsage e a c u r ;; ret tt)
  | CallSettleUsage u => settleUsage e u
  | CallWithdrawProviderRevenue a amt to => withdrawProviderRevenue e a amt to
  end.

(** One mined transaction, and a sequence of them. *)
Definition step (w : World) (tx : Env * Call) : World :=
  snd (transact (body (fst tx) (snd tx)) w).

Definition run (txs : list (Env * Call)) (w : World) : World :=
  foldl step w txs.

(** The freshly deployed contract. *)
Definition genesis (t : T) : World := mkWorld empty_storage t [].

Definition reachable (w : World) : Prop :=
  exists t txs, w = run txs (genesis t).

End Contract.
End X402Billing.

(** ** The specification's error kinds

    The contract reports a failure as a reason string; the specification
    names kinds. [kind] reads the kind off the reason. *)
Inductive ErrorKind :=
| AlreadyExists | InvalidArgument | NotFound | Unauthorized | Inactive
| InsufficientBalance | InvalidState | DuplicateUsage | TransferFailed
| ArithmeticOverflow | Unclassified.

Definition kind_of_reason (r : string) : ErrorKind :=
  if String.eqb r "API already exists" then AlreadyExists
  else if String.eqb r "Invalid payment token" then InvalidArgument
  else if String.eqb r "Invalid price" then InvalidArgument
  else if String.eqb r "Units must be > 0" then InvalidArgument
  else if String.eqb r "Invalid consumer" then InvalidArgument
  else if String.eqb r "Invalid to" then InvalidArgument
  else if String.eqb r "Invalid amount" then InvalidArgument
  else if String.eqb r "API not found" then NotFound
  else if String.eqb r "Not API provider" then Unauthorized
  else if String.eqb r "API not active" then Inactive
  else if String.eqb r "Insufficient prepaid units" then InsufficientBalance
  else if String.eqb r "Usage not reportable/settleable" then InvalidState
  else if String.eqb r "Usage already exists" then DuplicateUsage
  else if String.eqb r "Token transfer failed" then TransferFailed
  else Unclassified.

Definition kind (f : Failure) : ErrorKind :=
  match f with
  | Error r => kind_of_reason r
  | Panic _ => ArithmeticOverflow
  | Bubbled => TransferFailed
  end.

(** ** A concrete token and hash, to run the contract on examples *)

(** Modelled from the spec: [contracts/MockToken.sol], the ERC20-like
    payment token of the demo, is not among the sources. The specification
    only asks of the payment unit that a transfer either moves the amount
    in full or fails; this token keeps a balance per (token, owner), moves
    the amount when the source holds it and reverts otherwise. Allowances
    are not tracked. *)
Module MockToken.
Definition t : Type := gmap (Z * Z) Z.

Definition bal (token owner : address) (m : t) : uint256 :=
  default 0 (m !! (token, owner)).

Definition move (token from to : address) (value : uint256) (m : t) : CallResult t :=
  if (0 <=? value) && (value <=? bal token from m) then
    let m1 := <[(token, from) := bal token from m - value]> m in
    Returned true (<[(token, to) := bal token to m1 + value]> m1)
  else CallReverted.

#[global] Instance erc20 : IERC20 t := {
  transferFrom token caller from to value := move token from to value;
  transfer token caller to value := move token caller to value;
  balanceOf token owner := bal token owner
}.

(** A stand-in for keccak256 on examples: a polynomial hash of the bytes,
    modulo 2^256. *)
Definition hash (bs : list Byte.byte) : bytes32 :=
  foldl (fun acc b => (acc * 257 + Z.of_N (Byte.to_N b)) mod 2 ^ 256) 0 bs.
End MockToken.

(** ** The specification's scenario, on the concrete token

    Provider 7 registers API 1 at price 2; consumer 8 holds 100 of token
    2000 and prepays 5 units; the gateway 9 reports one unit and settles
    it. *)
Module Scenario.
Import X402Billing.

Definition this : address := 1000.
Definition token : address := 2000.
Definition providerP : address := 7.
Definition consumerC : address := 8.
Definition gateway : address := 9.
Definition apiA : bytes32 := 1.

Definition t0 : MockToken.t := {[ (token, consumerC) := 100 ]}.
Definition w0 : World := genesis t0.

Definition env (sender : address) (block : Z) : Env :=
  mkEnv sender (1700000000 + 12 * block) block.

Definition exec (txs : list (Env * Call)) (w : World) : World :=
  run this MockToken.hash txs w.

Definition tx_register : Env * Call :=
  (env providerP 1, CallRegisterApi apiA token 2 "ipfs://demo-x402-api/demo/hello").
Definition tx_prepay : Env * Call :=
  (env consumerC 2, CallPrepay apiA 5 consumerC).
Definition tx_report : Env * Call :=
  (env gateway 3, CallReportUsage apiA consumerC 1 "ref1").
Definition tx_reprice (p : uint256) : Env * Call :=
  (env providerP 4, CallUpdateApiConfig apiA p "ipfs://demo-x402-api/demo/hello" true).

(** The identifier [tx_report] derives. *)
Definition usage1 : bytes32 :=
  MockToken.hash (encodePacked (env gateway 3) apiA consumerC 1 "ref1").

Definition tx_settle : Env * Call := (env gateway 5, CallSettleUsage usage1).

Definition w_registered : World := exec [tx_register] w0.
Definition w_prepaid : World := exec [tx_prepay] w_registered.
Definition w_reported : World := exec [tx_report] w_prepaid.
Definition w_repriced : World := exec [tx_reprice 7] w_reported.
Definition w_settled : World := exec [tx_settle] w_repriced.

(** The provider sets the price of the registered API to zero. *)
Definition w_zero_price : World := exec [tx_reprice 0] w_registered.

(** An API registered at a price whose product with two units passes
    2^256 - 1. *)
Definition tx_register_huge : Env * Call :=
  (env providerP 1, CallRegisterApi apiA token (2 ^ 255) "ipfs://demo").
Definition w_huge : World := exec [tx_register_huge] w0.
End Scenario.

(** ** The gateway's request check ([backend/server.js]) *)
Module Gateway.

(** JavaScript numbers: NaN, the two infinities, and the finite values (each
    finite double is a rational). *)
Inductive Num :=
| NaN
| Infinity (negative : bool)
| Finite (q : Q).

(** The values a JSON body can hold. An object or array is kept as the
    string its [toString] gives, which is all that [Number] and [BigInt]
    look at. *)
Inductive Value :=
| Undefined
| Null
| JsBool (b : bool)
| JsNumber (n : Num)
| JsString (s : string)
| JsObject (toString : string).

(** What a call throws: [new Error(message)] of the function itself, or an
    exception raised inside a builtin or inside ethers. *)
Inductive Thrown :=
| JsError (message : string)
| Raised (name : string).

(** [!v] is [negb (truthy v)]. *)
Definition truthy (v : Value) : bool :=
  match v with
  | Undefined | Null => false
  | JsBool b => b
  | JsNumber NaN => false
  | JsNumber (Infinity _) => true
  | JsNumber (Finite q) => negb (Qeq_bool q 0)
  | JsString s => negb (String.eqb s "")
  | JsObject _ => true
  end.

(** [a < b] on numbers; any comparison with NaN is false. *)
Definition lt (a b : Num) : bool :=
  match a, b with
  | NaN, _ | _, NaN => false
  | Infinity true, Infinity true => false
  | Infinity true, _ => true
  | _, Infinity true => false
  | Infinity false, _ => false
  | Finite _, Infinity false => true
  | Finite x, Finite y => negb (Qle_bool y x)
  end.

(** [String.prototype.toLowerCase], on the ASCII letters. *)
Definition lower_ascii (c : ascii) : ascii :=
  let n := nat_of_ascii c in
  if (Nat.leb 65 n && Nat.leb n 90)%bool then ascii_of_nat (n + 32) else c.

Fixpoint toLowerCase (s : string) : string :=
  match s with
  | EmptyString => EmptyString
  | String c rest => String (lower_ascii c) (toLowerCase rest)
  end.

(** The EIP-712 domain, a module-level variable filled in at startup. *)
Record Domain := mkDomain {
  name : string;
  version : string;
  chainId : Z;
  verifyingContract : string
}.

(** [EIP712_TYPES.Call] *)
Definition EIP712_TYPES : list (string * string) :=
  [("consumer", "address"); ("apiId", "bytes32");
   ("nonce", "uint256"); ("deadline", "uint256")]%string.

Record Message := mkMessage {
  m_consumer : Value;
  m_apiId : string;
  m_nonce : Z;
  m_deadline : Z
}.

(** What [verifySignedRequest] resolves to. *)
Record SignedRequest := mkSignedRequest {
  consumer : Value;
  nonce : Value;
  deadline : Value;
  signature : Value
}.

Section Verify.
(** Builtins and library functions the check calls: the string-to-number
    and string-to-BigInt conversions of the language, [ethers.isAddress] and
    [ethers.verifyTypedData] (which returns the recovered address or
    throws). *)
Variable StringToNumber : string -> Num.
Variable StringToBigInt : string -> option Z.
Variable isAddress : Value -> bool.
Variable verifyTypedData :
  Domain -> list (string * string) -> Message -> Value -> option string.

(** [Number(v)] *)
Definition Number (v : Value) : Num :=
  match v with
  | Undefined => NaN
  | Null => Finite 0
  | JsBool b => Finite (if b then 1 else 0)
  | JsNumber n => n
  | JsString s => StringToNumber s
  | JsObject s => StringToNumber s
  end.

(** [BigInt(v)]: throws on undefined and null (TypeError), on a number
    that is not an integer (RangeError) and on a string that is not an
    integer literal (SyntaxError). *)
Definition BigInt (v : Value) : Thrown + Z :=
  match v with
  | Undefined | Null => inl (Raised "TypeError")
  | JsBool b => inr (if b then 1 else 0)
  | JsNumber (Finite q) =>
      if Qeq_bool q (inject_Z (Qfloor q)) then inr (Qfloor q)
      else inl (Raised "RangeError")
  | JsNumber _ => inl (Raised "RangeError")
  | JsString s | JsObject s =>
      match StringToBigInt s with
      | Some z => inr z
      | None => inl (Raised "SyntaxError")
      end
  end.

(** [const { consumer, nonce, deadline, signature } = body || {}] *)
Definition field (body : option (gmap string Value)) (k : string) : Value :=
  default Undefined (default ∅ body !! k).

(** [Math.floor(Date.now() / 1000)] *)
Definition nowSec (now_ms : Z) : Z := now_ms / 1000.

Definition verifySignedRequest (eip712Domain : Domain) (now_ms : Z)
    (body : option (gmap string Value)) (expectedApiId : string)
    : Thrown + SignedRequest :=
  let consumer := field body "consumer" in
  let nonce := field body "nonce" in
  let deadline := field body "deadline" in
  let signature := field body "signature" in
  if negb (truthy consumer) || negb (isAddress consumer) then
    inl (JsError "Missing or invalid consumer")
  else if negb (truthy nonce) || negb (truthy deadline) || negb (truthy signature) then
    inl (JsError "Missing nonce/deadline/signature")
  else if lt (Number deadline) (Finite (inject_Z (nowSec now_ms))) then
    inl (JsError "Signature expired")
  else
    match BigInt nonce with
    | inl ex => inl ex
    | inr n =>
      match BigInt deadline with
      | inl ex => inl ex
      | inr d =>
        let message := mkMessage consumer expectedApiId n d in
        match verifyTypedData eip712Domain EIP712_TYPES message signature with
        | None => inl (Raised "ethers")
        | Some recovered =>
          match consumer with
          | JsString c =>
              if negb (String.eqb (toLowerCase recovered) (toLowerCase c)) then
                inl (JsError "Invalid signature")
              else inr (mkSignedRequest consumer nonce deadline signature)
          | _ => inl (Raised "TypeError")
          end
        end
      end
    end.
End Verify.

(** The specification's kinds for the check's own errors. *)
Inductive VerifyKind := Malformed | Expired | InvalidSignature | Other.

Definition verify_kind (t : Thrown) : VerifyKind :=
  match t with
  | JsError m =>
      if String.eqb m "Missing or invalid consumer" then Malformed
      else if String.eqb m "Missing nonce/deadline/signature" then Malformed
      else if String.eqb m "Signature expired" then Expired
      else if String.eqb m "Invalid signature" then InvalidSignature
      else Other
  | Raised _ => Other
  end.

(** Stand-ins for the builtins, to run the check on examples: decimal
    literals only, an address is any 42-character string, and a signature
    is accepted when it is the string the consumer's address itself. *)
Module Demo.
Fixpoint digits (s : string) (acc : Z) : option Z :=
  match s with
  | EmptyString => Some acc
  | String c rest =>
      let n := nat_of_ascii c in
      if (Nat.leb 48 n && Nat.leb n 57)%bool
      then digits rest (acc * 10 + Z.of_nat (n - 48))
      else None
  end.

Definition StringToBigInt (s : string) : option Z :=
  match s with EmptyString => Some 0 | _ => digits s 0 end.

Definition StringToNumber (s : string) : Num :=
  match StringToBigInt s with
  | Some z => Finite (inject_Z z)
  | None => NaN
  end.

Definition isAddress (v : Value) : bool :=
  match v with
  | JsString s => Nat.eqb (String.length s) 42
  | _ => false
  end.

Definition verifyTypedData (d : Domain) (types : list (string * string))
    (m : Message) (sig : Value) : option string :=
  match sig with
  | JsString s => Some s
  | _ => None
  end.

Definition verify := verifySignedRequest StringToNumber StringToBigInt isAddress verifyTypedData.
End Demo.

(** Requests to run the check on. *)
Module Examples.
Definition domain : Domain := mkDomain "X402Demo" "1" 31337 "0x5FbDB2315678afecb367f032d93F642f64180aa3".
Definition consumer_addr : string := "0x70997970C51812dc3A010C7d01b50e0d17dc79C8".
Definition api_hello : string := "0x64656d6f2f68656c6c6f00000000000000000000000000000000000000000000".
Definition now_ms : Z := 1700000000500.
(** A fresh request whose nonce is the number 0. *)
Definition body_nonce0 : option (gmap string Value) :=
  Some (<["consumer" := JsString consumer_addr]>
       (<["nonce" := JsNumber (Finite 0)]>
       (<["deadline" := JsNumber (Finite (inject_Z 1800000000))]>
       (<["signature" := JsString consumer_addr]> ∅)))).
(** The same with nonce 1: accepted. *)
Definition body_fresh : option (gmap string Value) :=
  Some (<["consumer" := JsString consumer_addr]>
       (<["nonce" := JsNumber (Finite 1)]>
       (<["deadline" := JsNumber (Finite (inject_Z 1800000000))]>
       (<["signature" := JsString consumer_addr]> ∅)))).
End Examples.

End Gateway.

(** ** Well-ranged arguments and states

    The ABI decoder only delivers [uint256] arguments between 0 and
    2^256 - 1; [sound] is what the contract keeps true of its storage when
    it is called with such arguments. *)
Module Ranges.
Import X402Billing.

Definition is_uint256 (z : Z) : Prop := 0 <= z <= MAX_UINT256.

Definition call_in_range (c : Call) : Prop :=
  match c with
  | CallRegisterApi _ _ p _ => is_uint256 p
  | CallUpdateApiConfig _ p _ _ => is_uint256 p
  | CallPrepay _ u _ => is_uint256 u
  | CallReportUsage _ _ u _ => is_uint256 u
  | CallSettleUsage _ => True
  | CallWithdrawProviderRevenue _ amt _ => is_uint256 amt
  end.

Section States.
Context {T : Type}.

Definition sound (w : World (T:=T)) : Prop :=
  (forall a, is_uint256 (ApiConfig.pricePerUnit (getApiConfig a w))) /\
  (forall a, ApiConfig.provider (getApiConfig a w) <> 0 ->
             ApiConfig.paymentToken (getApiConfig a w) <> 0) /\
  (forall a c, is_uint256 (prepaidUnits a c w)) /\
  (forall a, is_uint256 (providerBalance a w)) /\
  (forall id, UsageRecord.status (getUsage id w) <> UsageStatus.None ->
     ApiConfig.provider (getApiConfig (UsageRecord.apiId (getUsage id w)) w) <> 0 /\
     0 < UsageRecord.units (getUsage id w) <= MAX_UINT256 /\
     is_uint256 (UsageRecord.pricePerUnitSnapshot (getUsage id w))).
End States.
End Ranges.

(** ** Further runs of the contract on the concrete token *)
Module Cases.
Import X402Billing Scenario.

(** The scenario up to the change of price, as one sequence from the
    deployment. *)
Definition history : list (Env * Call) :=
  [tx_register; tx_prepay; tx_report; tx_reprice 7].

(** The provider withdraws the revenue of the scenario. *)
Definition tx_withdraw : Env * Call :=
  (env providerP 6, CallWithdrawProviderRevenue apiA 2 providerP).
Definition w_withdrawn : World := exec [tx_withdraw] w_settled.

(** The provider deactivates the API after the prepayment. *)
Definition tx_deactivate : Env * Call :=
  (env providerP 4, CallUpdateApiConfig apiA 2 "ipfs://demo-x402-api/demo/hello" false).
Definition w_inactive : World := exec [tx_deactivate] w_prepaid.

(** Two units prepaid at price 1 and reported after the price went to
    2^255. *)
Definition tx_register_cheap : Env * Call :=
  (env providerP 1, CallRegisterApi apiA token 1 "ipfs://demo").
Definition tx_prepay2 : Env * Call := (env consumerC 2, CallPrepay apiA 2 consumerC).
Definition tx_reprice_huge : Env * Call :=
  (env providerP 3, CallUpdateApiConfig apiA (2 ^ 255) "ipfs://demo" true).
Definition tx_report2 : Env * Call :=
  (env gateway 4, CallReportUsage apiA consumerC 2 "big").
Definition usage_big : bytes32 :=
  MockToken.hash (encodePacked (env gateway 4) apiA consumerC 2 "big").
Definition w_stuck : World :=
  exec [tx_register_cheap; tx_prepay2; tx_reprice_huge; tx_report2] w0.
End Cases.

(** ** The API identifiers of the backend ([backend/server.js],
    [backend/config.js]) *)
Module ApiId.
Local Open Scope nat_scope.

(** One hexadecimal digit, lower case, as [Buffer.toString("hex")] writes
    it. *)
Definition hex_digit (n : nat) : ascii :=
  if Nat.ltb n 10 then ascii_of_nat (48 + n) else ascii_of_nat (87 + n).

(** [Buffer.from(str).toString("hex")], on the bytes of the string. *)
Fixpoint toHex (s : string) : string :=
  match s with
  | EmptyString => EmptyString
  | String c rest =>
      String (hex_digit (nat_of_ascii c / 16))
        (String (hex_digit (nat_of_ascii c mod 16)) (toHex rest))
  end.

(** [n] copies of a character. *)
Fixpoint repeat_char (c : ascii) (n : nat) : string :=
  match n with
  | O => EmptyString
  | S n' => String c (repeat_char c n')
  end.

(** [s.padEnd(n, c)]: fill up to length [n]; a longer string is kept. *)
Definition padEnd (n : nat) (c : ascii) (s : string) : string :=
  (s ++ repeat_char c (n - String.length s))%string.

(** [toAPIId(str)] *)
Definition toAPIId (str : string) : string :=
  ("0x" ++ padEnd 64 "0" (toHex str))%string.

(** [API_ID] of config.js is the same expression on "demo/hello". *)
Definition API_ID : string := ("0x" ++ padEnd 64 "0" (toHex "demo/hello"))%string.
Definition API_ID_HELLO : string := API_ID.
Definition API_ID_RANDOM : string := toAPIId "random/number".

(** Reading an identifier back, to tell which keys share one: the value of
    a hexadecimal digit, and the bytes of a hex string up to the first zero
    byte. Not part of the backend. *)
Definition hex_value (c : ascii) : nat :=
  let n := nat_of_ascii c in
  if Nat.leb 97 n then n - 87 else n - 48.

Fixpoint fromHex (fuel : nat) (s : string) : string :=
  match fuel, s with
  | S fuel', String hi (String lo rest) =>
      let b := hex_value hi * 16 + hex_value lo in
      if Nat.eqb b 0 then EmptyString
      else String (ascii_of_nat b) (fromHex fuel' rest)
  | _, _ => EmptyString
  end.

Definition fromAPIId (id : string) : string :=
  match id with
  | String _ (String _ digits) => fromHex (String.length digits) digits
  | _ => EmptyString
  end.

(** A key without a zero byte. *)
Fixpoint nul_free (s : string) : Prop :=
  match s with
  | EmptyString => True
  | String c rest => nat_of_ascii c <> 0%nat /\ nul_free rest
  end.
End ApiId.

(** ** The backend around the check ([backend/server.js]) *)
Module Server.
Import X402Billing.

(** An entry of [API_LIST]. *)
Record Api := mkApi {
  name : string;
  apiKey : string;
  apiId : string;
  endpoint : string;
  description : string
}.

Definition API_LIST : list Api :=
  [ mkApi "Hello API" "demo/hello" ApiId.API_ID_HELLO "/demo/hello"
      "Returns a greeting message";
    mkApi "Random Number API" "random/number" ApiId.API_ID_RANDOM "/random/number"
      "Returns a random integer" ].

(** [x402Abi.js]: the fragments of the contract known to the backend's
    [ethers.Contract], each by its kind and its name. *)
Definition X402_ABI : list (string * string) :=
  [ ("event", "UsageReported");
    ("function", "getApiConfig");
    ("function", "registerApi");
    ("function", "updateApiConfig");
    ("function", "prepay");
    ("function", "prepaidUnits");
    ("function", "reportUsage");
    ("function", "settleUsage");
    ("function", "providerBalance") ].

(** [x402.name] is a method for the functions of the ABI only; for any
    other name it is [undefined], and calling it throws a TypeError
    ("x402.name is not a function"). *)
Definition has_method (name : string) : bool :=
  existsb (fun f => String.eqb (fst f) "function" && String.eqb (snd f) name)
    X402_ABI.

(** An entry of [usageHistory]; [result] is set by /random/number only. *)
Record Usage := mkUsage {
  usageId : bytes32;
  u_apiId : string;
  consumer : string;
  units : Z;
  timestamp : Z;
  requestId : string;
  result : option Z
}.

(** The [billing] object of a successful answer. *)
Record Billing := mkBilling {
  b_apiId : string;
  b_units : Z;
  b_usageId : bytes32
}.

(** Why the billing block threw: ethers could not encode the consumer as
    an address, the report reverted, the report was sent and not mined, its
    receipt held no UsageReported event, the settlement reverted, or the
    settlement was sent and not mined. *)
Inductive BillingError :=
| BadAddress
| ReportReverted (f : Failure)
| ReportNotMined
| NoUsageId
| SettleReverted (f : Failure)
| SettleNotMined.

(** What the chain and the node do around the two transactions of one
    request, beyond the control of the handler: whether the report, once
    sent, is mined; the transactions of other senders, or of other
    requests served at the same time, that are mined after the report and
    before the settlement; whether the settlement, once sent, is mined. *)
Record Traffic := mkTraffic {
  report_mined : bool;
  between : list (Env * Call);
  settle_mined : bool
}.

(** The same around one turn of the registration loop: the transactions
    mined before the configuration is read, those mined between the read
    and the registration, and whether the registration, once sent, is
    mined. *)
Record Turn := mkTurn {
  before_check : list (Env * Call);
  before_send : list (Env * Call);
  mined : bool
}.

(** A turn during which nobody else transacts and the node takes the
    transaction. *)
Definition quiet : Turn := mkTurn [] [] true.

(** Why a transaction of the backend failed: it reverts, or it was sent
    and the node did not take it (a nonce it had seen already, for
    instance). *)
Inductive SendError :=
| Revert (f : Failure)
| NotMined.

(** The answers of the two business endpoints: 200 with the result, 400
    "Signature verification failed", 500 "Billing failed". *)
Inductive Response :=
| Hello (message requestId : string) (consumer : Gateway.Value) (billing : Billing)
| RandomNumber (number : Z) (billing : Billing)
| VerificationFailed (details : Gateway.Thrown)
| BillingFailed (details : BillingError).

(** The answer of /provider/withdraw. *)
Record Withdrawal := mkWithdrawal {
  w_apiId : string;
  w_to : address;
  w_amount : uint256
}.

(** Why the withdrawal loop threw: the contract object has no such method,
    ethers could not encode the recipient, or a withdrawal reverted. *)
Inductive WithdrawError :=
| NotAFunction
| BadRecipient
| WithdrawReverted (f : Failure).

Inductive WithdrawResponse :=
| Withdrawn (withdrawals : list Withdrawal)
| WithdrawFailed (details : WithdrawError).

(** The first UsageReported event of a receipt. *)
Fixpoint parse_usageId (logs : list Event) : option bytes32 :=
  match logs with
  | [] => None
  | UsageReported _ id _ _ _ _ :: _ => Some id
  | _ :: rest => parse_usageId rest
  end.

Section Handlers.
Context {T : Type} `{!IERC20 T}.
Local Abbreviation World := (X402Billing.World (T:=T)).

(** The deployment: the contract's address and hash, the builtins of the
    request check, and ethers' encoding of an identifier and of an address
    (which throws on a string that is no address). [meter] is the address
    of [meterWallet], the sender of every transaction of the backend. *)
Variable this : address.
Variable keccak256 : list Byte.byte -> bytes32.
Variable StringToNumber : string -> Gateway.Num.
Variable StringToBigInt : string -> option Z.
Variable isAddress : Gateway.Value -> bool.
Variable verifyTypedData :
  Gateway.Domain -> list (string * string) -> Gateway.Message -> Gateway.Value
  -> option string.
Variable bytes32_of : string -> bytes32.
Variable address_of : string -> option address.
Variable meter : address.
Variable PAYMENT_TOKEN_ADDRESS : address.

Definition address_of_value (v : Gateway.Value) : option address :=
  match v with
  | Gateway.JsString s => address_of s
  | _ => None
  end.

(** A transaction of the backend, mined in the block [blk] (timestamp and
    number). *)
Definition tx_env (blk : Z * Z) : Env := mkEnv meter (fst blk) (snd blk).

(** [await x402.f(...)] followed by [await tx.wait()]. ethers first
    estimates the call on the chain as it stands, and a call that reverts
    throws there, with the reason, before anything is sent. A call that
    passes is sent; it is then mined, on the chain on which it was
    estimated, or the node turns it down and the promise is rejected.
    Either failure leaves the chain as it was. *)
Definition send {A} (is_mined : bool) (m : M A) (w : World)
    : (SendError + A) * World :=
  match transact m w with
  | (Reverted f, _) => (inl (Revert f), w)
  | (Success a, w') => if is_mined then (inr a, w') else (inl NotMined, w)
  end.

(** The billing block shared, up to the API and the prefix of the
    reference, by the two endpoints: report one unit, read the usage
    identifier off the receipt, settle it. The report and the settlement
    are two transactions, of the blocks [blk1] and [blk2]; the handler is
    suspended at every [await], and [env] tells what the chain does in the
    meantime. [w] is the chain when the report is sent; the world returned
    is the chain after the last transaction of the handler, or as the
    handler last saw it. *)
Definition bill (apiId prefix : string) (consumer : Gateway.Value)
    (requestId : string) (blk1 blk2 : Z * Z) (env : Traffic) (w : World)
    : (BillingError + bytes32) * World :=
  let units := 1 in
  let offchainRef := (prefix ++ requestId)%string in
  match address_of_value consumer with
  | None => (inl BadAddress, w)
  | Some c =>
    match send (report_mined env)
            (reportUsage keccak256 (tx_env blk1) (bytes32_of apiId) c units
               offchainRef) w with
    | (inl (Revert f), _) => (inl (ReportReverted f), w)
    | (inl NotMined, _) => (inl ReportNotMined, w)
    | (inr _, w1) =>
      match parse_usageId (drop (length (log w)) (log w1)) with
      | None => (inl NoUsageId, w1)
      | Some usageId =>
        let w1' := run this keccak256 (between env) w1 in
        match send (settle_mined env) (settleUsage (tx_env blk2) usageId) w1' with
        | (inl (Revert f), _) => (inl (SettleReverted f), w1')
        | (inl NotMined, _) => (inl SettleNotMined, w1')
        | (inr _, w2) => (inr usageId, w2)
        end
      end
    end
  end.

(** [app.post("/demo/hello", ...)]. [now_ms] and [ts] are the two readings
    of the clock, [requestId] the random identifier. The state is the
    chain when the report is sent and [usageHistory] as it stands when the
    handler comes to push its entry. *)
Definition demo_hello (eip712Domain : Gateway.Domain) (now_ms : Z)
    (body : option (gmap string Gateway.Value)) (requestId : string)
    (blk1 blk2 : Z * Z) (env : Traffic) (ts : Z) (st : World * list Usage)
    : Response * (World * list Usage) :=
  match Gateway.verifySignedRequest StringToNumber StringToBigInt isAddress
          verifyTypedData eip712Domain now_ms body ApiId.API_ID_HELLO with
  | inl err => (VerificationFailed err, st)
  | inr req =>
    let consumer := Gateway.consumer req in
    match bill ApiId.API_ID_HELLO "hello:" consumer requestId blk1 blk2 env (fst st) with
    | (inl err, w) => (BillingFailed err, (w, snd st))
    | (inr usageId, w) =>
      match consumer with
      | Gateway.JsString c =>
        (Hello "Hello from X402 demo API (EIP-712 secured)" requestId consumer
           (mkBilling ApiId.API_ID_HELLO 1 usageId),
         (w, snd st ++ [mkUsage usageId ApiId.API_ID_HELLO c 1 ts requestId None]))
      | _ => (BillingFailed BadAddress, (w, snd st))
      end
    end
  end.

(** [app.post("/random/number", ...)]; [randomNumber] is the number
    drawn. *)
Definition random_number (eip712Domain : Gateway.Domain) (now_ms : Z)
    (body : option (gmap string Gateway.Value)) (requestId : string)
    (randomNumber : Z) (blk1 blk2 : Z * Z) (env : Traffic) (ts : Z)
    (st : World * list Usage)
    : Response * (World * list Usage) :=
  match Gateway.verifySignedRequest StringToNumber StringToBigInt isAddress
          verifyTypedData eip712Domain now_ms body ApiId.API_ID_RANDOM with
  | inl err => (VerificationFailed err, st)
  | inr req =>
    let consumer := Gateway.consumer req in
    match bill ApiId.API_ID_RANDOM "random:" consumer requestId blk1 blk2 env
            (fst st) with
    | (inl err, w) => (BillingFailed err, (w, snd st))
    | (inr usageId, w) =>
      match consumer with
      | Gateway.JsString c =>
        (RandomNumber randomNumber (mkBilling ApiId.API_ID_RANDOM 1 usageId),
         (w, snd st ++ [mkUsage usageId ApiId.API_ID_RANDOM c 1 ts requestId
                          (Some randomNumber)]))
      | _ => (BillingFailed BadAddress, (w, snd st))
      end
    end
  end.

(** The loop of [app.post("/provider/withdraw", ...)]: for every API of the
    list owned by the meter wallet and holding revenue, call
    [x402.withdrawProviderRevenue] for all of it, to [to]. The call throws
    when the contract object has no such method; otherwise a failing
    transaction ends the loop, and what was withdrawn before stays
    withdrawn. The chain is read as it stands when the request arrives;
    the block data, which a withdrawal does not read, is taken the same
    for every transaction of the loop. *)
Fixpoint withdraw_loop (blk : Z * Z) (to : option address) (apis : list Api)
    (results : list Withdrawal) (w : World) : WithdrawResponse * World :=
  match apis with
  | [] => (Withdrawn results, w)
  | api :: rest =>
    let a := bytes32_of (apiId api) in
    if negb (ApiConfig.provider (getApiConfig a w) =? meter) then
      withdraw_loop blk to rest results w
    else
      let bal := providerBalance a w in
      if bal =? 0 then withdraw_loop blk to rest results w
      else if negb (has_method "withdrawProviderRevenue") then
        (WithdrawFailed NotAFunction, w)
      else
        match to with
        | None => (WithdrawFailed BadRecipient, w)
        | Some dest =>
          match transact (withdrawProviderRevenue this (tx_env blk) a bal dest) w with
          | (Reverted f, _) => (WithdrawFailed (WithdrawReverted f), w)
          | (Success _, w') =>
              withdraw_loop blk to rest
                (results ++ [mkWithdrawal (apiId api) dest bal]) w'
          end
        end
  end.

(** [req.body?.to && ethers.isAddress(req.body.to) ? req.body.to :
    meterWallet.address], as the address the contract will see. *)
Definition withdraw_to (body : option (gmap string Gateway.Value)) : option address :=
  let to := Gateway.field body "to" in
  if Gateway.truthy to && isAddress to then address_of_value to else Some meter.

Definition provider_withdraw (body : option (gmap string Gateway.Value))
    (blk : Z * Z) (w : World) : WithdrawResponse * World :=
  withdraw_loop blk (withdraw_to body) API_LIST [] w.

(** [ensureApisRegistered]: register, at price 10^18 and with the
    configured token, every API of the list that has no provider yet (the
    view [getApiConfig] of a deployed contract does not revert, so the
    catch around it is not taken). The loop is suspended at every [await]:
    [turns] tells, turn by turn, what the chain does in the meantime and
    whether the registration is mined, a missing turn being quiet. An
    error ends the startup. The block data, which a registration does not
    read, is taken the same for every transaction of the loop. *)
Definition pricePerUnit : uint256 := 10 ^ 18.
Definition metadataBase : string := "ipfs://demo-x402-api/".

Fixpoint ensure_loop (blk : Z * Z) (apis : list Api) (turns : list Turn) (w : World)
    : (SendError + unit) * World :=
  match apis with
  | [] => (inr tt, w)
  | api :: rest =>
    let turn := hd quiet turns in
    let a := bytes32_of (apiId api) in
    let w0 := run this keccak256 (before_check turn) w in
    if negb (ApiConfig.provider (getApiConfig a w0) =? 0) then
      ensure_loop blk rest (tl turns) w0
    else
      let metadataURI := (metadataBase ++ apiKey api)%string in
      let w1 := run this keccak256 (before_send turn) w0 in
      match send (mined turn)
              (registerApi (tx_env blk) a PAYMENT_TOKEN_ADDRESS pricePerUnit
                 metadataURI) w1 with
      | (inl err, _) => (inl err, w1)
      | (inr _, w2) => ensure_loop blk rest (tl turns) w2
      end
  end.

Definition ensureApisRegistered (blk : Z * Z) (turns : list Turn) (w : World)
    : (SendError + unit) * World :=
  ensure_loop blk API_LIST turns w.

End Handlers.
End Server.

(** ** A run of the backend on the concrete token

    Stand-ins for ethers' encodings: the digits after "0x" read as a
    hexadecimal number, and an address is a string of 42 characters. The
    meter wallet 7 registers the two APIs at startup; the consumer of the
    examples holds 10 * 10^18 tokens and prepays five units of the Hello
    API. *)
Module ServerCases.
Import X402Billing.

Fixpoint hex_to_Z (s : string) (acc : Z) : Z :=
  match s with
  | EmptyString => acc
  | String c rest =>
      hex_to_Z rest (acc * 16 + Z.of_nat (ApiId.hex_value (Gateway.lower_ascii c)))
  end.

Definition bytes32_of (s : string) : bytes32 :=
  match s with
  | String _ (String _ digits) => hex_to_Z digits 0
  | _ => 0
  end.

Definition address_of (s : string) : option address :=
  if Nat.eqb (String.length s) 42 then Some (bytes32_of s) else None.

Definition this : address := 1000.
Definition token : address := 2000.
Definition meter : address := 7.
Definition consumerC : address := bytes32_of Gateway.Examples.consumer_addr.
Definition a_hello : bytes32 := bytes32_of ApiId.API_ID_HELLO.
Definition a_random : bytes32 := bytes32_of ApiId.API_ID_RANDOM.

Definition blk (n : Z) : Z * Z := (1700000000 + 12 * n, n).

Definition t0 : MockToken.t := {[ (token, consumerC) := 10 * 10 ^ 18 ]}.
Definition w0 : World := genesis t0.

(** After startup: the meter wallet has registered the two APIs. *)
Definition w_started : World :=
  run this MockToken.hash
    [(mkEnv meter 1700000012 1,
      CallRegisterApi a_hello token (10 ^ 18) "ipfs://demo-x402-api/demo/hello");
     (mkEnv meter 1700000012 1,
      CallRegisterApi a_random token (10 ^ 18) "ipfs://demo-x402-api/random/number")]
    w0.

(** After the consumer's prepayment of five units. *)
Definition w_prepaid : World :=
  run this MockToken.hash
    [(mkEnv consumerC 1700000024 2, CallPrepay a_hello 5 consumerC)] w_started.

Definition hello :=
  Server.demo_hello (T:=MockToken.t) this MockToken.hash Gateway.Demo.StringToNumber
    Gateway.Demo.StringToBigInt Gateway.Demo.isAddress Gateway.Demo.verifyTypedData
    bytes32_of address_of meter Gateway.Examples.domain.

(** A request during which nobody else transacts and both transactions
    are mined. *)
Definition calm : Server.Traffic := Server.mkTraffic true [] true.

(** The first call of /demo/hello, and the state it leaves. *)
Definition served : Server.Response * (World * list Server.Usage) :=
  hello Gateway.Examples.now_ms Gateway.Examples.body_fresh "9f86d081884c7d65"
    (blk 3) (blk 4) calm 1700000000900 (w_prepaid, []).

Definition usage_hello : bytes32 :=
  MockToken.hash
    (encodePacked (Server.tx_env meter (blk 3)) a_hello consumerC 1
       "hello:9f86d081884c7d65").

(** A request during which the provider doubles the price between the
    report and the settlement. *)
Definition busy : Server.Traffic :=
  Server.mkTraffic true
    [(mkEnv meter 1700000040 4,
      CallUpdateApiConfig a_hello (2 * 10 ^ 18) "ipfs://demo-x402-api/demo/hello" true)]
    true.

(** A request whose settlement the node turns down. *)
Definition lost_settlement : Server.Traffic := Server.mkTraffic true [] false.

(** A request whose usage somebody else settles first. *)
Definition overtaken : Server.Traffic :=
  Server.mkTraffic true [(mkEnv consumerC 1700000040 4, CallSettleUsage usage_hello)]
    true.

(** A startup whose second registration the node turns down. *)
Definition second_lost : list Server.Turn :=
  [Server.quiet; Server.mkTurn [] [] false].
End ServerCases.

(** * Properties of the ledger *)
Module Ledger.
Import X402Billing.

Section Proofs.
Context {T : Type} `{!IERC20 T}.
Variable this : address.
Variable keccak256 : list Byte.byte -> bytes32.

Ltac mred :=
  cbv [transact prepay reportUsage settleUsage withdrawProviderRevenue
       registerApi updateApiConfig onlyProvider call_transferFrom call_transfer
       write_api write_prepaid write_providerBalance write_usage
       checked_add checked_sub checked_mul require bind sload sstore emit ret
       throw body step fst snd getUsage getApiConfig prepaidUnits
       providerBalance usageRecords apis prepaid providerBalances
       store tokens log _apis _prepaidUnits _providerBalances _usageRecords] in *.

Ltac mcase :=
  match goal with
  | |- context [if ?c then _ else _] => destruct c eqn:?
  | |- context [match ?c with Returned _ _ => _ | CallReverted => _ end] =>
      destruct c eqn:?
  end; mred.

Ltac mrun := mred; repeat mcase.

Ltac bools :=
  repeat match goal with
  | H : negb _ = true |- _ => apply negb_true_iff in H
  | H : negb _ = false |- _ => apply negb_false_iff in H
  | H : (_ && _)%bool = true |- _ => apply andb_true_iff in H; destruct H
  | H : (_ && _)%bool = false |- _ => apply andb_false_iff in H
  | H : (_ =? _) = true |- _ => apply Z.eqb_eq in H
  | H : (_ =? _) = false |- _ => apply Z.eqb_neq in H
  | H : (_ <? _) = true |- _ => apply Z.ltb_lt in H
  | H : (_ <? _) = false |- _ => apply Z.ltb_ge in H
  | H : (_ <=? _) = true |- _ => apply Z.leb_le in H
  | H : (_ <=? _) = false |- _ => apply Z.leb_gt in H
  end.

Lemma status_eqb_eq a b : UsageStatus.eqb a b = true <-> a = b.
Proof. destruct a, b; simpl; split; congruence. Qed.

(** A reverted transaction leaves the world it started from. *)
Lemma transact_reverted {A} (m : M A) (w w' : World (T:=T)) f :
  transact m w = (Reverted f, w') -> w' = w.
Proof.
  unfold transact. destruct (m w) as [[f'|a] w'']; intros Heq; congruence.
Qed.

(** One transaction leaves an existing usage record alone, or settles it. *)
Lemma usage_step (w : World (T:=T)) tx id :
  UsageRecord.status (getUsage id w) <> UsageStatus.None ->
  getUsage id (step this keccak256 w tx) = getUsage id w \/
  (UsageRecord.status (getUsage id w) = UsageStatus.Reported /\
   getUsage id (step this keccak256 w tx) =
     UsageRecord.set_status UsageStatus.Settled (getUsage id w)).
Proof.
  intros Hs. destruct tx as [e c]. destruct w as [[sa sp sb su] t l].
  destruct c; mrun; auto.
  - match goal with
    | H : UsageStatus.eqb _ _ = true |- _ => apply status_eqb_eq in H; revert H
    end.
    generalize (keccak256 (encodePacked e apiId consumer units offchainRef)) as k.
    intros k. rewrite !lookup_insert_eq, !lookup_insert.
    repeat case_decide; subst; auto; intros; congruence.
  - match goal with
    | H : UsageStatus.eqb _ _ = true |- _ => apply status_eqb_eq in H
    end.
    rewrite lookup_insert. case_decide; subst; auto.
Qed.

Lemma usage_run txs : forall (w : World (T:=T)) id,
  UsageRecord.status (getUsage id w) <> UsageStatus.None ->
  getUsage id (run this keccak256 txs w) = getUsage id w \/
  (UsageRecord.status (getUsage id w) = UsageStatus.Reported /\
   getUsage id (run this keccak256 txs w) =
     UsageRecord.set_status UsageStatus.Settled (getUsage id w)).
Proof.
  induction txs as [|tx txs IH]; intros w id Hs; [left; reflexivity|].
  change (run this keccak256 (tx :: txs) w)
    with (run this keccak256 txs (step this keccak256 w tx)).
  destruct (usage_step w tx id Hs) as [Heq | [Hrep Heq]].
  - destruct (IH (step this keccak256 w tx) id) as [H1 | [H1 H2]].
    + rewrite Heq; exact Hs.
    + left. rewrite H1. exact Heq.
    + right. rewrite <- Heq. auto.
  - destruct (IH (step this keccak256 w tx) id) as [H1 | [H1 H2]].
    + rewrite Heq. discriminate.
    + right. rewrite H1. auto.
    + rewrite Heq in H1. discriminate.
Qed.

(** A settled record stays as it is. *)
Lemma settled_stays txs (w : World (T:=T)) id :
  UsageRecord.status (getUsage id w) = UsageStatus.Settled ->
  getUsage id (run this keccak256 txs w) = getUsage id w.
Proof.
  intros Hs. destruct (usage_run txs w id) as [H1 | [H0 _]]; congruence.
Qed.

(** What a successful [settleUsage] did. *)
Lemma settleUsage_success e id (w w' : World (T:=T)) :
  transact (settleUsage e id) w = (Success tt, w') ->
  let r := getUsage id w in
  UsageRecord.status r = UsageStatus.Reported /\
  providerBalance (UsageRecord.apiId r) w' =
    providerBalance (UsageRecord.apiId r) w
      + UsageRecord.units r * UsageRecord.pricePerUnitSnapshot r /\
  getUsage id w' = UsageRecord.set_status UsageStatus.Settled r.
Proof.
  destruct w as [[sa sp sb su] t l]. intros Hrun. revert Hrun. mrun; intros Hrun; try discriminate.
  injection Hrun as <-. cbn [store _providerBalances _usageRecords].
  rewrite !lookup_insert_eq. cbn [default].
  match goal with
  | H : UsageStatus.eqb _ _ = true |- _ => apply status_eqb_eq in H
  end. auto.
Qed.

(** [settleUsage] on anything but a reported record. *)
Lemma settleUsage_not_reported e id (w : World (T:=T)) :
  UsageRecord.status (getUsage id w) <> UsageStatus.Reported ->
  transact (settleUsage e id) w =
    (Reverted (Error "Usage not reportable/settleable"), w).
Proof.
  intros Hs. destruct w as [[sa sp sb su] t l]. mred.
  destruct (UsageStatus.eqb _ _) eqn:E; [|reflexivity].
  apply status_eqb_eq in E. contradiction.
Qed.

(** What a successful [reportUsage] did. *)
Lemma reportUsage_success e a c u ref id (w w' : World (T:=T)) :
  transact (reportUsage keccak256 e a c u ref) w = (Success id, w') ->
  id = keccak256 (encodePacked e a c u ref) /\
  ApiConfig.provider (getApiConfig a w) <> 0 /\
  0 < u <= prepaidUnits a c w /\
  UsageRecord.status (getUsage id w) = UsageStatus.None /\
  prepaidUnits a c w' = prepaidUnits a c w - u /\
  getUsage id w' =
    UsageRecord.mk a c u (ApiConfig.pricePerUnit (getApiConfig a w))
      (ApiConfig.paymentToken (getApiConfig a w)) UsageStatus.Reported ref.
Proof.
  destruct w as [[sa sp sb su] t l]. intros Hrun. revert Hrun. mrun; intros Hrun; try discriminate.
  injection Hrun as <- <-. cbn [store _prepaidUnits _usageRecords].
  rewrite !lookup_insert_eq. cbn [default].
  match goal with
  | H : UsageStatus.eqb _ _ = true |- _ => apply status_eqb_eq in H
  end. bools.
  repeat split; auto; try lia.
Qed.

(** [reportUsage] goes through whenever its checks pass and the derived
    identifier is free. *)
Lemma reportUsage_succeeds e a c u ref (w : World (T:=T)) :
  ApiConfig.provider (getApiConfig a w) <> 0 -> 0 < u -> u <= prepaidUnits a c w ->
  UsageRecord.status (getUsage (keccak256 (encodePacked e a c u ref)) w)
    = UsageStatus.None ->
  exists w', transact (reportUsage keccak256 e a c u ref) w
             = (Success (keccak256 (encodePacked e a c u ref)), w').
Proof.
  destruct w as [[sa sp sb su] t l]. mred. intros Hp Hu Hbal Hfree.
  apply Z.eqb_neq in Hp. apply Z.ltb_lt in Hu. apply Z.leb_le in Hbal.
  rewrite Hp, Hu. cbn [negb]. mred. rewrite Hbal. mred. rewrite Hbal. mred.
  rewrite Hfree.
  cbn [UsageStatus.eqb]. mred. eauto.
Qed.

(** [settleUsage] goes through on a reported record of a registered API,
    short of an overflow of the revenue balance. *)
Lemma settleUsage_succeeds e id (w : World (T:=T)) :
  let r := getUsage id w in
  UsageRecord.status r = UsageStatus.Reported ->
  ApiConfig.provider (getApiConfig (UsageRecord.apiId r) w) <> 0 ->
  UsageRecord.units r * UsageRecord.pricePerUnitSnapshot r <= MAX_UINT256 ->
  providerBalance (UsageRecord.apiId r) w
    + UsageRecord.units r * UsageRecord.pricePerUnitSnapshot r <= MAX_UINT256 ->
  exists w', transact (settleUsage e id) w = (Success tt, w').
Proof.
  destruct w as [[sa sp sb su] t l]. cbv zeta. mred. intros Hs Hp Hmul Hadd.
  apply Z.eqb_neq in Hp. apply Z.leb_le in Hmul, Hadd.
  rewrite Hs. cbn [UsageStatus.eqb]. mred. rewrite Hp. cbn [negb]. mred.
  rewrite Hmul. mred. rewrite Hadd. mred. eauto.
Qed.

(** What a successful [prepay] did. *)
Lemma prepay_success e a u c (w w' : World (T:=T)) :
  transact (prepay this e a u c) w = (Success tt, w') ->
  let cfg := getApiConfig a w in
  (ApiConfig.provider cfg <> 0 /\ ApiConfig.active cfg = true /\ 0 < u /\ c <> 0) /\
  ApiConfig.pricePerUnit cfg * u <= MAX_UINT256 /\
  transferFrom (ApiConfig.paymentToken cfg) this (msg_sender e) this
    (ApiConfig.pricePerUnit cfg * u) (tokens w) = Returned true (tokens w') /\
  store w' = mkStorage (_apis (store w))
               (<[(a, c) := prepaidUnits a c w + u]> (_prepaidUnits (store w)))
               (_providerBalances (store w)) (_usageRecords (store w)) /\
  log w' = log w ++ [UsagePrepaid a (msg_sender e) c u
                       (ApiConfig.pricePerUnit cfg * u) (ApiConfig.paymentToken cfg)].
Proof.
  destruct w as [[sa sp sb su] t l]. intros Hrun. revert Hrun. mrun; intros Hrun; try discriminate.
  injection Hrun as <-. cbn [store tokens log]. bools.
  repeat split; auto; try lia.
Qed.

(** [prepay] goes through whenever its checks pass and the token accepts
    the transfer. *)
Lemma prepay_succeeds e a u c (w : World (T:=T)) t' :
  let cfg := getApiConfig a w in
  ApiConfig.provider cfg <> 0 -> ApiConfig.active cfg = true -> 0 < u -> c <> 0 ->
  ApiConfig.pricePerUnit cfg * u <= MAX_UINT256 ->
  transferFrom (ApiConfig.paymentToken cfg) this (msg_sender e) this
    (ApiConfig.pricePerUnit cfg * u) (tokens w) = Returned true t' ->
  prepaidUnits a c w + u <= MAX_UINT256 ->
  exists w', transact (prepay this e a u c) w = (Success tt, w').
Proof.
  destruct w as [[sa sp sb su] t l]. cbv zeta. mred. intros Hp Hact Hu Hc Hmul Htok Hadd.
  rewrite Hact.
  apply Z.eqb_neq in Hp, Hc. apply Z.ltb_lt in Hu. apply Z.leb_le in Hmul, Hadd.
  rewrite Hp, Hu, Hc, Hmul. cbn [negb]. mred. rewrite Htok. mred. rewrite Hadd. mred. eauto.
Qed.

(** What a successful [withdrawProviderRevenue] did. *)
Lemma withdraw_success e a amt to (w w' : World (T:=T)) :
  transact (withdrawProviderRevenue this e a amt to) w = (Success tt, w') ->
  let cfg := getApiConfig a w in
  ApiConfig.provider cfg = msg_sender e /\ to <> 0 /\
  0 < amt <= providerBalance a w /\
  transfer (ApiConfig.paymentToken cfg) this to amt (tokens w)
    = Returned true (tokens w') /\
  providerBalance a w' = providerBalance a w - amt.
Proof.
  destruct w as [[sa sp sb su] t l]. intros Hrun. revert Hrun. mrun; intros Hrun; try discriminate.
  injection Hrun as <-. cbn [store tokens _providerBalances].
  rewrite lookup_insert_eq. cbn [default]. bools. repeat split; auto; lia.
Qed.

(** What [updateApiConfig] does for the provider of a registered API: every
    price is accepted. *)
Lemma updateApiConfig_by_provider e a p m act (w : World (T:=T)) :
  let cfg := getApiConfig a w in
  ApiConfig.provider cfg <> 0 -> msg_sender e = ApiConfig.provider cfg ->
  exists w', transact (updateApiConfig e a p m act) w = (Success tt, w') /\
    getApiConfig a w' =
      ApiConfig.mk (ApiConfig.provider cfg) (ApiConfig.paymentToken cfg) p m act.
Proof.
  destruct w as [[sa sp sb su] t l]. cbv zeta. mred. intros Hp Hs.
  rewrite Hs, Z.eqb_refl. mred. apply Z.eqb_neq in Hp. rewrite Hp. cbn [negb]. mred.
  eexists; split; [reflexivity|]. cbn [store _apis].
  rewrite !lookup_insert_eq. reflexivity.
Qed.

(** [registerApi] turns down a price that is not positive. *)
Lemma registerApi_rejects_nonpositive_price e a tok p m (w : World (T:=T)) :
  p <= 0 -> exists f, transact (registerApi e a tok p m) w = (Reverted f, w).
Proof.
  intros Hp. destruct w as [[sa sp sb su] t l]. mrun; eauto. bools. lia.
Qed.

(** A transaction that brings a usage record into being is a report, and
    the record is the one the report describes. *)
Lemma usage_creation_step (w : World (T:=T)) tx id :
  UsageRecord.status (getUsage id w) = UsageStatus.None ->
  getUsage id (step this keccak256 w tx) = getUsage id w \/
  exists a c u ref, snd tx = CallReportUsage a c u ref /\
    id = keccak256 (encodePacked (fst tx) a c u ref) /\
    ApiConfig.provider (getApiConfig a w) <> 0 /\ 0 < u <= prepaidUnits a c w /\
    getUsage id (step this keccak256 w tx) =
      UsageRecord.mk a c u (ApiConfig.pricePerUnit (getApiConfig a w))
        (ApiConfig.paymentToken (getApiConfig a w)) UsageStatus.Reported ref.
Proof.
  intros Hs. destruct tx as [e call]. destruct w as [[sa sp sb su] t l].
  destruct call; mrun; auto.
  - remember (keccak256 (encodePacked e apiId consumer units offchainRef)) as k eqn:Hk.
    destruct (decide (k = id)) as [Heq|Hne].
    + right. do 4 eexists. split; [reflexivity|]. split; [congruence|]. bools.
      split; [assumption|]. split; [lia|].
      rewrite Heq, !lookup_insert_eq. reflexivity.
    + left. rewrite !lookup_insert_ne by congruence. reflexivity.
  - match goal with
    | H : UsageStatus.eqb _ _ = true |- _ => apply status_eqb_eq in H
    end.
    destruct (decide (usageId = id)) as [->|Hne]; [congruence|].
    left. rewrite lookup_insert_ne by congruence. reflexivity.
Qed.

(** The whole life of a record that does not exist yet: after any sequence
    of transactions it still does not exist, or one transaction of the
    sequence was the report that created it, as Reported and with the data
    of that report, and it is that record still or that record settled. *)
Lemma usage_from_none_run txs : forall (w : World (T:=T)) id,
  UsageRecord.status (getUsage id w) = UsageStatus.None ->
  getUsage id (run this keccak256 txs w) = getUsage id w \/
  exists t1 tx t2 a c u ref,
    txs = t1 ++ tx :: t2 /\ snd tx = CallReportUsage a c u ref /\
    id = keccak256 (encodePacked (fst tx) a c u ref) /\
    let w1 := run this keccak256 t1 w in
    let created :=
      UsageRecord.mk a c u (ApiConfig.pricePerUnit (getApiConfig a w1))
        (ApiConfig.paymentToken (getApiConfig a w1)) UsageStatus.Reported ref in
    getUsage id (step this keccak256 w1 tx) = created /\
    (getUsage id (run this keccak256 txs w) = created \/
     getUsage id (run this keccak256 txs w) =
       UsageRecord.set_status UsageStatus.Settled created).
Proof.
  induction txs as [|tx txs IH]; intros w id Hs; [left; reflexivity|].
  change (run this keccak256 (tx :: txs) w)
    with (run this keccak256 txs (step this keccak256 w tx)).
  destruct (usage_creation_step w tx id Hs)
    as [Heq | (a & c & u & ref & Hcall & Hid & _ & _ & Hrec)].
  - destruct (IH (step this keccak256 w tx) id)
      as [H1 | (t1 & tx' & t2 & a & c & u & ref & Htxs & Hcall & Hid & Hrec & Hend)].
    + rewrite Heq. exact Hs.
    + left. rewrite H1. exact Heq.
    + right. exists (tx :: t1), tx', t2, a, c, u, ref.
      split; [rewrite Htxs; reflexivity|]. split; [exact Hcall|].
      split; [exact Hid|]. exact (conj Hrec Hend).
  - right. exists [], tx, txs, a, c, u, ref.
    split; [reflexivity|]. split; [exact Hcall|]. split; [exact Hid|].
    cbv zeta. change (run this keccak256 [] w) with w. split; [exact Hrec|].
    destruct (usage_run txs (step this keccak256 w tx) id) as [H1 | [_ H1]].
    + rewrite Hrec. discriminate.
    + left. rewrite H1. exact Hrec.
    + right. rewrite H1, Hrec. reflexivity.
Qed.

(** C8: along any sequence of transactions the status of a usage record
    only moves forward on the line None, Reported, Settled, one edge at a
    time. A record that does not exist yet is left as it is by a
    transaction or created by it as Reported, never as Settled, and only a
    report creates it, with the data of that report; over a sequence it is
    then that record or that record settled. A reported record keeps all
    its fields, its status alone moving to Settled. A settled record is
    never changed again. In particular no record is deleted and none
    returns to None. *)
Theorem usage_status_monotone txs (w : World (T:=T)) id :
  let r := getUsage id w in
  let r' := getUsage id (run this keccak256 txs w) in
  (UsageStatus.rank (UsageRecord.status r)
     <= UsageStatus.rank (UsageRecord.status r'))%nat /\
  (UsageRecord.status r = UsageStatus.Settled -> r' = r) /\
  (UsageRecord.status r = UsageStatus.Reported ->
     r' = r \/ r' = UsageRecord.set_status UsageStatus.Settled r) /\
  (UsageRecord.status r = UsageStatus.None ->
     (forall tx,
        getUsage id (step this keccak256 w tx) = r \/
        exists a c u ref,
          snd tx = CallReportUsage a c u ref /\
          id = keccak256 (encodePacked (fst tx) a c u ref) /\
          getUsage id (step this keccak256 w tx) =
            UsageRecord.mk a c u (ApiConfig.pricePerUnit (getApiConfig a w))
              (ApiConfig.paymentToken (getApiConfig a w)) UsageStatus.Reported ref) /\
     (r' = r \/
      exists t1 tx t2 a c u ref,
        txs = t1 ++ tx :: t2 /\ snd tx = CallReportUsage a c u ref /\
        id = keccak256 (encodePacked (fst tx) a c u ref) /\
        let w1 := run this keccak256 t1 w in
        let created :=
          UsageRecord.mk a c u (ApiConfig.pricePerUnit (getApiConfig a w1))
            (ApiConfig.paymentToken (getApiConfig a w1)) UsageStatus.Reported ref in
        getUsage id (step this keccak256 w1 tx) = created /\
        (r' = created \/ r' = UsageRecord.set_status UsageStatus.Settled created))).
Proof.
  cbv zeta.
  destruct (UsageRecord.status (getUsage id w)) eqn:Hs.
  - split; [cbn; lia|]. split; [discriminate|]. split; [discriminate|].
    intros _. split.
    + intros tx.
      destruct (usage_creation_step w tx id Hs)
        as [Heq | (a & c & u & ref & Hcall & Hid & _ & _ & Hrec)]; [left; exact Heq|].
      right. exists a, c, u, ref. auto.
    + exact (usage_from_none_run txs w id Hs).
  - destruct (usage_run txs w id) as [H1 | [_ H1]]; [congruence| |]; rewrite H1.
    + rewrite Hs. cbn. split; [lia|]. split; [discriminate|].
      split; [auto|discriminate].
    + cbn. split; [lia|]. split; [discriminate|]. split; [auto|discriminate].
  - rewrite settled_stays, Hs by exact Hs. cbn.
    split; [lia|]. split; [auto|]. split; discriminate.
Qed.

(** C1: [reportUsage] fails, leaving the world (hence the balance) as it
    was, whenever the consumer's prepaid units are fewer than [units]; when
    it succeeds the balance has gone down by exactly [units] and the record
    stored under the returned identifier is Reported and carries the price
    the API had when the call was made. *)
Theorem reportUsage_debits_and_records e a c u ref (w : World (T:=T)) o w' :
  transact (reportUsage keccak256 e a c u ref) w = (o, w') ->
  (prepaidUnits a c w < u -> (exists f, o = Reverted f) /\ w' = w) /\
  (forall id, o = Success id ->
     prepaidUnits a c w' = prepaidUnits a c w - u /\
     getUsage id w' =
       UsageRecord.mk a c u (ApiConfig.pricePerUnit (getApiConfig a w))
         (ApiConfig.paymentToken (getApiConfig a w)) UsageStatus.Reported ref).
Proof.
  intros Hrun. split.
  - intros Hlt. destruct o as [id|f].
    + apply reportUsage_success in Hrun. lia.
    + split; [eauto|]. eapply transact_reverted; eauto.
  - intros id ->. apply reportUsage_success in Hrun. tauto.
Qed.

(** C2: a successful [settleUsage] credits the API's revenue with exactly
    units times the price snapshot of the record; from then on, whatever
    transactions come in between, [settleUsage] on the same identifier fails
    with "Usage not reportable/settleable" (InvalidState); and for a record
    made by [reportUsage] the snapshot is the price the API had at that
    report, whatever happened to the live price since. *)
Theorem settleUsage_once_at_snapshot e id (w2 w3 : World (T:=T)) :
  transact (settleUsage e id) w2 = (Success tt, w3) ->
  let r := getUsage id w2 in
  providerBalance (UsageRecord.apiId r) w3 =
    providerBalance (UsageRecord.apiId r) w2
      + UsageRecord.units r * UsageRecord.pricePerUnitSnapshot r /\
  (forall txs e',
     transact (settleUsage e' id) (run this keccak256 txs w3) =
       (Reverted (Error "Usage not reportable/settleable"),
        run this keccak256 txs w3)) /\
  kind (Error "Usage not reportable/settleable") = InvalidState /\
  (forall e0 a c u ref w0 w1 txs,
     transact (reportUsage keccak256 e0 a c u ref) w0 = (Success id, w1) ->
     w2 = run this keccak256 txs w1 ->
     UsageRecord.apiId r = a /\
     UsageRecord.units r * UsageRecord.pricePerUnitSnapshot r =
       u * ApiConfig.pricePerUnit (getApiConfig a w0)).
Proof.
  intros Hrun. cbv zeta.
  destruct (settleUsage_success _ _ _ _ Hrun) as (Hrep & Hbal & Hrec).
  split; [exact Hbal|]. split; [|split; [reflexivity|]].
  - intros txs e'. apply settleUsage_not_reported.
    rewrite settled_stays; rewrite Hrec; cbn; congruence.
  - intros e0 a c u ref w0 w1 txs Hreport ->.
    apply reportUsage_success in Hreport.
    destruct Hreport as (_ & _ & _ & _ & _ & Hmk).
    destruct (usage_run txs w1 id) as [H1 | [_ H1]].
    + rewrite Hmk. discriminate.
    + rewrite H1, Hmk. cbn. auto.
    + rewrite H1, Hmk. cbn. auto.
Qed.

(** C3: a failing call of the contract, and so a failing [prepay],
    [reportUsage] or [withdrawProviderRevenue], leaves the whole world
    (storage, tokens and log) as it was, whatever the failure; a report for
    more units than are prepaid fails with "Insufficient prepaid units" and
    the balance stays; and a withdrawal changes a revenue balance only
    together with a token transfer that returned true. *)
Theorem revert_is_atomic e (w : World (T:=T)) :
  (forall c f w',
     transact (body this keccak256 e c) w = (Reverted f, w') -> w' = w) /\
  (forall a u c f w',
     transact (prepay this e a u c) w = (Reverted f, w') -> w' = w) /\
  (forall a c u ref f w',
     transact (reportUsage keccak256 e a c u ref) w = (Reverted f, w') -> w' = w) /\
  (forall a amt to f w',
     transact (withdrawProviderRevenue this e a amt to) w = (Reverted f, w') ->
     w' = w) /\
  (forall a c u ref,
     ApiConfig.provider (getApiConfig a w) <> 0 -> 0 < u ->
     prepaidUnits a c w < u ->
     transact (reportUsage keccak256 e a c u ref) w =
       (Reverted (Error "Insufficient prepaid units"), w) /\
     kind (Error "Insufficient prepaid units") = InsufficientBalance) /\
  (forall a amt to o w' a',
     transact (withdrawProviderRevenue this e a amt to) w = (o, w') ->
     providerBalance a' w' <> providerBalance a' w ->
     transfer (ApiConfig.paymentToken (getApiConfig a w)) this to amt (tokens w)
       = Returned true (tokens w') /\
     a' = a /\ providerBalance a w' = providerBalance a w - amt).
Proof.
  repeat split; try (intros; eapply transact_reverted; eauto; fail).
  - destruct w as [[sa sp sb su] t l]. mred. apply Z.eqb_neq in H. apply Z.ltb_lt in H0.
    apply Z.leb_gt in H1. rewrite H, H0. cbn [negb]. mred. rewrite H1. reflexivity.
  - destruct o as [[]|f].
    + apply withdraw_success in H. tauto.
    + apply transact_reverted in H. congruence.
  - destruct o as [[]|f].
    + destruct (decide (a' = a)) as [|Hne]; [done|]. exfalso. apply H0.
      destruct w as [[sa sp sb su] t l]. revert H. mrun; intros H; try discriminate.
      injection H as <-. cbn [store _providerBalances].
      rewrite lookup_insert_ne by congruence. reflexivity.
    + apply transact_reverted in H. congruence.
  - destruct o as [[]|f].
    + apply withdraw_success in H. tauto.
    + apply transact_reverted in H. congruence.
Qed.

(** C7: a successful [prepay] adds exactly [units] to the consumer's
    prepaid units and is one [transferFrom] of the payment token, from the
    caller to the contract, of exactly the API's current price times
    [units], which returned true; the API was registered and active and
    [units] positive; no other balance moved and the event carries the
    amount. *)
Theorem prepay_credits_and_charges e a u c (w w' : World (T:=T)) :
  transact (prepay this e a u c) w = (Success tt, w') ->
  let cfg := getApiConfig a w in
  (ApiConfig.provider cfg <> 0 /\ ApiConfig.active cfg = true /\ 0 < u) /\
  prepaidUnits a c w' = prepaidUnits a c w + u /\
  transferFrom (ApiConfig.paymentToken cfg) this (msg_sender e) this
    (ApiConfig.pricePerUnit cfg * u) (tokens w) = Returned true (tokens w') /\
  (forall a' c', (a', c') <> (a, c) ->
     prepaidUnits a' c' w' = prepaidUnits a' c' w) /\
  log w' = log w ++ [UsagePrepaid a (msg_sender e) c u
                       (ApiConfig.pricePerUnit cfg * u) (ApiConfig.paymentToken cfg)].
Proof.
  intros Hrun. apply prepay_success in Hrun. cbv zeta in *.
  destruct Hrun as ((Hp & Hact & Hu & _) & _ & Htok & Hst & Hlog).
  repeat split; auto.
  - unfold prepaidUnits, prepaid. rewrite Hst. cbn [_prepaidUnits].
    rewrite lookup_insert_eq. reflexivity.
  - intros a' c' Hne. unfold prepaidUnits, prepaid. rewrite Hst.
    cbn [_prepaidUnits]. rewrite lookup_insert_ne by congruence. reflexivity.
Qed.

(** C10: when the API's price times [units] exceeds 2^256 - 1, [prepay]
    fails and nothing is credited; when its other checks pass, the failure
    is the arithmetic panic 0x11 of the checked multiplication. *)
Theorem prepay_overflow_reverts e a u c (w : World (T:=T)) :
  MAX_UINT256 < ApiConfig.pricePerUnit (getApiConfig a w) * u ->
  (exists f, transact (prepay this e a u c) w = (Reverted f, w)) /\
  (ApiConfig.provider (getApiConfig a w) <> 0 ->
   ApiConfig.active (getApiConfig a w) = true -> 0 < u -> c <> 0 ->
   transact (prepay this e a u c) w = (Reverted (Panic 17), w)).
Proof.
  intros Hov. destruct w as [[sa sp sb su] t l]. split.
  - mrun; eauto. bools. mred. lia.
  - mred. intros Hp Hact Hu Hc. apply Z.eqb_neq in Hp, Hc. apply Z.ltb_lt in Hu.
    apply Z.leb_gt in Hov. rewrite Hp, Hact, Hu, Hc. cbn [negb]. mred.
    rewrite Hov. reflexivity.
Qed.

(** C4, as the code has it: a caller that is not the stored provider of
    [apiId] is turned away from [withdrawProviderRevenue] with "Not API
    provider" (Unauthorized), registered or not, and likewise from
    [updateApiConfig] on a registered API; the provider's own withdrawal
    fails with an InvalidArgument reason when the amount is not positive
    or exceeds the revenue balance. *)
Theorem provider_gate e a (w : World (T:=T)) :
  let cfg := getApiConfig a w in
  (msg_sender e <> ApiConfig.provider cfg ->
   forall amt to,
     transact (withdrawProviderRevenue this e a amt to) w =
       (Reverted (Error "Not API provider"), w)) /\
  (ApiConfig.provider cfg <> 0 -> msg_sender e <> ApiConfig.provider cfg ->
   forall p m act,
     transact (updateApiConfig e a p m act) w =
       (Reverted (Error "Not API provider"), w)) /\
  kind (Error "Not API provider") = Unauthorized /\
  (msg_sender e = ApiConfig.provider cfg ->
   forall amt to, amt <= 0 \/ providerBalance a w < amt ->
     exists f, transact (withdrawProviderRevenue this e a amt to) w = (Reverted f, w)
               /\ kind f = InvalidArgument).
Proof.
  cbv zeta. destruct w as [[sa sp sb su] t l]. repeat split.
  - intros Hne amt to. mred. apply not_eq_sym, Z.eqb_neq in Hne. rewrite Hne.
    reflexivity.
  - intros _ Hne p m act. mred. apply not_eq_sym, Z.eqb_neq in Hne. rewrite Hne.
    reflexivity.
  - intros Hs amt to Hamt. mred. rewrite Hs, Z.eqb_refl. mred.
    destruct (negb (to =? 0)); mred; [|eauto].
    destruct (0 <? amt) eqn:E1; cbn [andb]; mred; [|eauto].
    destruct (amt <=? _) eqn:E2; mred; [|eauto].
    bools. lia.
Qed.

(** ** Further properties of the ledger *)

(** [registerApi] goes through exactly when the identifier is free, the
    token is not the zero address and the price is positive; it then stores
    an active configuration owned by the caller and emits one event. *)
Theorem registerApi_spec e a tok p m (w : World (T:=T)) :
  (ApiConfig.provider (getApiConfig a w) = 0 /\ tok <> 0 /\ 0 < p ->
   exists w', transact (registerApi e a tok p m) w = (Success tt, w') /\
     getApiConfig a w' = ApiConfig.mk (msg_sender e) tok p m true /\
     (forall a', a' <> a -> getApiConfig a' w' = getApiConfig a' w) /\
     log w' = log w ++ [ApiRegistered a (msg_sender e) tok p m]) /\
  (~ (ApiConfig.provider (getApiConfig a w) = 0 /\ tok <> 0 /\ 0 < p) ->
   exists r, transact (registerApi e a tok p m) w = (Reverted (Error r), w) /\
     r = (if ApiConfig.provider (getApiConfig a w) =? 0
          then if tok =? 0 then "Invalid payment token" else "Invalid price"
          else "API already exists")).
Proof.
  destruct w as [[sa sp sb su] t l]. split.
  - intros (Hfree & Htok & Hp). mred. apply Z.eqb_neq in Htok. apply Z.ltb_lt in Hp.
    rewrite Hfree, Htok, Hp. cbn [Z.eqb negb]. mred.
    eexists. split; [reflexivity|]. cbn [store tokens log _apis].
    rewrite !lookup_insert_eq. cbn [default]. split; [reflexivity|].
    split; [|reflexivity].
    intros a' Hne. rewrite !lookup_insert_ne by congruence. reflexivity.
  - intros Hnot. mred.
    destruct (_ =? 0) eqn:E1; mred; [|eauto].
    destruct (tok =? 0) eqn:E2; cbn [negb]; mred; [eauto|].
    destruct (0 <? p) eqn:E3; mred; [|eauto].
    bools. exfalso. apply Hnot. auto.
Qed.

Lemma config_step (w : World (T:=T)) tx a :
  let cfg := getApiConfig a w in
  let cfg' := getApiConfig a (step this keccak256 w tx) in
  cfg' = cfg \/
  (ApiConfig.provider cfg = 0 /\
   exists tok p m, snd tx = CallRegisterApi a tok p m /\ tok <> 0 /\ 0 < p /\
     cfg' = ApiConfig.mk (msg_sender (fst tx)) tok p m true) \/
  (ApiConfig.provider cfg <> 0 /\ msg_sender (fst tx) = ApiConfig.provider cfg /\
   exists p m act, snd tx = CallUpdateApiConfig a p m act /\
     cfg' = ApiConfig.mk (ApiConfig.provider cfg) (ApiConfig.paymentToken cfg) p m act).
Proof.
  cbv zeta. destruct tx as [e c]. destruct w as [[sa sp sb su] t l].
  destruct c; mrun; auto.
  - destruct (decide (apiId = a)) as [->|Hne].
    + right. left. bools. split; [assumption|].
      do 3 eexists. split; [reflexivity|]. split; [assumption|]. split; [assumption|].
      rewrite !lookup_insert_eq. reflexivity.
    + left. rewrite !lookup_insert_ne by congruence. reflexivity.
  - destruct (decide (apiId = a)) as [->|Hne].
    + right. right. bools. split; [assumption|]. split; [congruence|].
      do 3 eexists. split; [reflexivity|].
      rewrite !lookup_insert_eq. reflexivity.
    + left. rewrite !lookup_insert_ne by congruence. reflexivity.
Qed.

Lemma provider_token_run txs : forall (w : World (T:=T)) a,
  ApiConfig.provider (getApiConfig a w) <> 0 ->
  ApiConfig.provider (getApiConfig a (run this keccak256 txs w))
    = ApiConfig.provider (getApiConfig a w) /\
  ApiConfig.paymentToken (getApiConfig a (run this keccak256 txs w))
    = ApiConfig.paymentToken (getApiConfig a w).
Proof.
  induction txs as [|tx txs IH]; intros w a Hp; [split; reflexivity|].
  change (run this keccak256 (tx :: txs) w)
    with (run this keccak256 txs (step this keccak256 w tx)).
  assert (Hstep : ApiConfig.provider (getApiConfig a (step this keccak256 w tx))
                    = ApiConfig.provider (getApiConfig a w) /\
                  ApiConfig.paymentToken (getApiConfig a (step this keccak256 w tx))
                    = ApiConfig.paymentToken (getApiConfig a w)).
  { destruct (config_step w tx a)
      as [-> | [[H0 _] | (_ & _ & p & m & act & _ & ->)]];
      [split; reflexivity | contradiction | split; reflexivity]. }
  destruct Hstep as [H1 H2].
  destruct (IH (step this keccak256 w tx) a) as [H3 H4]; [congruence|].
  split; congruence.
Qed.

(** An identifier is registered at most once: once it has a provider,
    every later [registerApi] for it, whatever came in between, fails with
    "API already exists". *)
Theorem registerApi_at_most_once txs e a tok p m (w : World (T:=T)) :
  ApiConfig.provider (getApiConfig a w) <> 0 ->
  transact (registerApi e a tok p m) (run this keccak256 txs w) =
    (Reverted (Error "API already exists"), run this keccak256 txs w).
Proof.
  intros Hp.
  destruct (provider_token_run txs w a Hp) as [Hsame _].
  rewrite <- Hsame in Hp. revert Hp.
  generalize (run this keccak256 txs w). intros [[sa sp sb su] t l] Hp.
  mred. apply Z.eqb_neq in Hp. rewrite Hp. reflexivity.
Qed.

Lemma prepaid_step (w : World (T:=T)) tx a c :
  let b := prepaidUnits a c w in
  let b' := prepaidUnits a c (step this keccak256 w tx) in
  b' = b \/
  (exists u, snd tx = CallPrepay a u c /\ 0 < u /\ b + u <= MAX_UINT256 /\
     b' = b + u) \/
  (exists u ref, snd tx = CallReportUsage a c u ref /\ 0 < u <= b /\ b' = b - u).
Proof.
  cbv zeta. destruct tx as [e call]. destruct w as [[sa sp sb su] t l].
  destruct call; mrun; auto.
  - destruct (decide ((apiId, consumer) = (a, c))) as [Heq|Hne].
    + injection Heq as -> ->. right. left. bools.
      eexists. split; [reflexivity|]. split; [assumption|]. split; [assumption|].
      rewrite lookup_insert_eq. reflexivity.
    + left. rewrite lookup_insert_ne by congruence. reflexivity.
  - destruct (decide ((apiId, consumer) = (a, c))) as [Heq|Hne].
    + injection Heq as -> ->. right. right. bools.
      do 2 eexists. split; [reflexivity|]. split; [lia|].
      rewrite lookup_insert_eq. reflexivity.
    + left. rewrite lookup_insert_ne by congruence. reflexivity.
Qed.

Lemma revenue_step (w : World (T:=T)) tx a :
  let b := providerBalance a w in
  let b' := providerBalance a (step this keccak256 w tx) in
  b' = b \/
  (exists id, snd tx = CallSettleUsage id /\
     UsageRecord.status (getUsage id w) = UsageStatus.Reported /\
     UsageRecord.apiId (getUsage id w) = a /\
     b + UsageRecord.units (getUsage id w)
           * UsageRecord.pricePerUnitSnapshot (getUsage id w) <= MAX_UINT256 /\
     b' = b + UsageRecord.units (getUsage id w)
              * UsageRecord.pricePerUnitSnapshot (getUsage id w)) \/
  (exists amt to, snd tx = CallWithdrawProviderRevenue a amt to /\
     msg_sender (fst tx) = ApiConfig.provider (getApiConfig a w) /\
     0 < amt <= b /\ b' = b - amt).
Proof.
  cbv zeta. destruct tx as [e call]. destruct w as [[sa sp sb su] t l].
  destruct call; mrun; auto.
  - match goal with
    | H : UsageStatus.eqb _ _ = true |- _ => apply status_eqb_eq in H
    end.
    destruct (decide (UsageRecord.apiId (default UsageRecord.zero (su !! usageId)) = a))
      as [Heq|Hne].
    + right. left. eexists. split; [reflexivity|]. split; [assumption|].
      split; [assumption|]. rewrite Heq in *. split; [bools; assumption|].
      rewrite lookup_insert_eq. reflexivity.
    + left. rewrite lookup_insert_ne by congruence. reflexivity.
  - destruct (decide (apiId = a)) as [->|Hne].
    + right. right. bools. do 2 eexists. split; [reflexivity|].
      split; [congruence|]. split; [lia|]. rewrite lookup_insert_eq. reflexivity.
    + left. rewrite lookup_insert_ne by congruence. reflexivity.
Qed.

(** *** The range invariant *)

Lemma sound_genesis (t : T) : Ranges.sound (genesis t).
Proof.
  unfold Ranges.sound, Ranges.is_uint256. cbv [genesis empty_storage]. mred.
  setoid_rewrite lookup_empty. cbn [default ApiConfig.zero UsageRecord.zero
    ApiConfig.provider ApiConfig.pricePerUnit UsageRecord.status].
  repeat split; intros; try congruence; unfold MAX_UINT256; lia.
Qed.

Lemma sound_step (w : World (T:=T)) tx :
  Ranges.sound w -> Ranges.call_in_range (snd tx) ->
  Ranges.sound (step this keccak256 w tx).
Proof.
  intros (Hprice & Htok & Hpre & Hrev & Hrec) Hr.
  unfold Ranges.sound, Ranges.is_uint256 in *.
  assert (Hprov : forall a, ApiConfig.provider (getApiConfig a w) <> 0 ->
            ApiConfig.provider (getApiConfig a (step this keccak256 w tx)) <> 0).
  { intros a Hp.
    destruct (config_step w tx a)
      as [-> | [[H0 _] | (_ & _ & p & m & act & _ & ->)]];
      [assumption | contradiction | exact Hp]. }
  split; [|split; [|split; [|split]]].
  - intros a.
    destruct (config_step w tx a)
      as [-> | [(_ & tok & p & m & Hc & _ & _ & ->) | (_ & _ & p & m & act & Hc & ->)]];
      [apply Hprice | rewrite Hc in Hr; exact Hr | rewrite Hc in Hr; exact Hr].
  - intros a.
    destruct (config_step w tx a)
      as [-> | [(_ & tok & p & m & _ & Ht & _ & ->) | (Hp & _ & p & m & act & _ & ->)]];
      [apply Htok | intros _; exact Ht | intros _; exact (Htok a Hp)].
  - intros a c. specialize (Hpre a c).
    destruct (prepaid_step w tx a c)
      as [-> | [(u & _ & Hu & Hmax & ->) | (u & ref & _ & Hu & ->)]]; lia.
  - intros a. specialize (Hrev a).
    destruct (revenue_step w tx a)
      as [-> | [(id & _ & Hs & _ & Hmax & ->) | (amt & to & _ & _ & Hamt & ->)]];
      [lia | | lia].
    destruct (Hrec id) as (_ & Hu & Hsnap); [congruence|]. nia.
  - intros id Hs'.
    destruct (UsageRecord.status (getUsage id w)) eqn:Hs.
    + destruct (usage_creation_step w tx id Hs)
        as [Heq | (a & c & u & ref & Hc & _ & Hp & Hu & Heq)].
      * rewrite Heq in Hs'. contradiction.
      * rewrite Heq. cbn [UsageRecord.apiId UsageRecord.units
                           UsageRecord.pricePerUnitSnapshot].
        split; [exact (Hprov a Hp)|]. specialize (Hpre a c). specialize (Hprice a).
        lia.
    + destruct (Hrec id) as (Hp & Hu & Hsnap); [congruence|].
      destruct (usage_step w tx id) as [-> | [_ ->]]; [congruence| |];
        cbn [UsageRecord.set_status UsageRecord.apiId UsageRecord.units
             UsageRecord.pricePerUnitSnapshot];
        (split; [exact (Hprov _ Hp)|lia]).
    + destruct (Hrec id) as (Hp & Hu & Hsnap); [congruence|].
      destruct (usage_step w tx id) as [-> | [_ ->]]; [congruence| |];
        cbn [UsageRecord.set_status UsageRecord.apiId UsageRecord.units
             UsageRecord.pricePerUnitSnapshot];
        (split; [exact (Hprov _ Hp)|lia]).
Qed.

Lemma sound_run txs : forall (w : World (T:=T)),
  Ranges.sound w -> Forall (fun tx => Ranges.call_in_range (snd tx)) txs ->
  Ranges.sound (run this keccak256 txs w).
Proof.
  induction txs as [|tx txs IH]; intros w Hw Hall; [exact Hw|].
  change (run this keccak256 (tx :: txs) w)
    with (run this keccak256 txs (step this keccak256 w tx)).
  inversion Hall; subst. apply IH; [apply sound_step|]; assumption.
Qed.

(** A reported record whose units times price snapshot pass 2^256 - 1 is
    left alone by every transaction. *)
Lemma stuck_step (w : World (T:=T)) tx id :
  UsageRecord.status (getUsage id w) = UsageStatus.Reported ->
  MAX_UINT256 < UsageRecord.units (getUsage id w)
                * UsageRecord.pricePerUnitSnapshot (getUsage id w) ->
  getUsage id (step this keccak256 w tx) = getUsage id w.
Proof.
  intros Hs Hov. destruct tx as [e call]. destruct w as [[sa sp sb su] t l].
  destruct call; mrun; auto.
  - match goal with
    | H : UsageStatus.eqb _ _ = true |- _ => apply status_eqb_eq in H; revert H
    end.
    generalize (keccak256 (encodePacked e apiId consumer units offchainRef)) as k.
    intros k Hk. destruct (decide (k = id)) as [->|Hne]; [congruence|].
    rewrite !lookup_insert_ne by congruence. reflexivity.
  - destruct (decide (usageId = id)) as [->|Hne]; [bools; lia|].
    rewrite lookup_insert_ne by congruence. reflexivity.
Qed.

Lemma stuck_run txs : forall (w : World (T:=T)) id,
  UsageRecord.status (getUsage id w) = UsageStatus.Reported ->
  MAX_UINT256 < UsageRecord.units (getUsage id w)
                * UsageRecord.pricePerUnitSnapshot (getUsage id w) ->
  getUsage id (run this keccak256 txs w) = getUsage id w.
Proof.
  induction txs as [|tx txs IH]; intros w id Hs Hov; [reflexivity|].
  change (run this keccak256 (tx :: txs) w)
    with (run this keccak256 txs (step this keccak256 w tx)).
  pose proof (stuck_step w tx id Hs Hov) as Heq.
  rewrite IH; rewrite Heq; auto.
Qed.

(** One transaction appends at most one event to the log. *)
Lemma log_step (w : World (T:=T)) tx :
  exists evs, log (step this keccak256 w tx) = log w ++ evs /\ (length evs <= 1)%nat.
Proof.
  destruct tx as [e call]. destruct w as [[sa sp sb su] t l].
  destruct call; mrun;
    solve [ exists []; split; [symmetry; apply app_nil_r | cbn; lia]
          | eexists [_]; split; [reflexivity | cbn; lia] ].
Qed.

(** What else a successful [reportUsage] did: one event, and nothing to
    the configurations, the revenue balances or the tokens. *)
Lemma reportUsage_effect e a c u ref id (w w' : World (T:=T)) :
  transact (reportUsage keccak256 e a c u ref) w = (Success id, w') ->
  _apis (store w') = _apis (store w) /\
  _providerBalances (store w') = _providerBalances (store w) /\
  tokens w' = tokens w /\
  log w' = log w ++ [UsageReported a id c u (msg_sender e) ref].
Proof.
  destruct w as [[sa sp sb su] t l]. intros Hrun. revert Hrun.
  mrun; intros Hrun; try discriminate.
  injection Hrun as <- <-. mred. auto.
Qed.

(** What else a successful [settleUsage] did. *)
Lemma settleUsage_effect e id (w w' : World (T:=T)) :
  transact (settleUsage e id) w = (Success tt, w') ->
  _apis (store w') = _apis (store w) /\
  _prepaidUnits (store w') = _prepaidUnits (store w) /\
  tokens w' = tokens w /\
  (forall a, a <> UsageRecord.apiId (getUsage id w) ->
     providerBalance a w' = providerBalance a w) /\
  exists ev, log w' = log w ++ [ev].
Proof.
  destruct w as [[sa sp sb su] t l]. intros Hrun. revert Hrun.
  mrun; intros Hrun; try discriminate.
  injection Hrun as <-. mred. repeat split; eauto.
  intros a Hne. rewrite lookup_insert_ne by congruence. reflexivity.
Qed.

(** What else a successful withdrawal did. *)
Lemma withdraw_effect e a amt to (w w' : World (T:=T)) :
  transact (withdrawProviderRevenue this e a amt to) w = (Success tt, w') ->
  _apis (store w') = _apis (store w) /\
  (forall a', a' <> a -> providerBalance a' w' = providerBalance a' w).
Proof.
  destruct w as [[sa sp sb su] t l]. intros Hrun. revert Hrun.
  mrun; intros Hrun; try discriminate.
  injection Hrun as <-. mred. split; [reflexivity|].
  intros a' Hne. rewrite lookup_insert_ne by congruence. reflexivity.
Qed.


Lemma reportUsage_is_step e a c u ref id (w w' : World (T:=T)) :
  transact (reportUsage keccak256 e a c u ref) w = (Success id, w') ->
  step this keccak256 w (e, CallReportUsage a c u ref) = w'.
Proof.
  unfold step, transact. cbn [fst snd body]. unfold bind at 1.
  destruct (reportUsage keccak256 e a c u ref w) as [[f|i] w1]; [discriminate|].
  intros H. injection H as _ <-. reflexivity.
Qed.

Lemma settleUsage_is_step e id (w w' : World (T:=T)) :
  transact (settleUsage e id) w = (Success tt, w') ->
  step this keccak256 w (e, CallSettleUsage id) = w'.
Proof. intros H. unfold step. cbn [fst snd body]. rewrite H. reflexivity. Qed.

Lemma run_app t1 t2 (w : World (T:=T)) :
  run this keccak256 (t1 ++ t2) w = run this keccak256 t2 (run this keccak256 t1 w).
Proof. unfold run. apply foldl_app. Qed.



(** A report for more units than the consumer holds. *)
Lemma reportUsage_insufficient e a c u ref (w : World (T:=T)) :
  ApiConfig.provider (getApiConfig a w) <> 0 -> 0 < u -> prepaidUnits a c w < u ->
  transact (reportUsage keccak256 e a c u ref) w =
    (Reverted (Error "Insufficient prepaid units"), w).
Proof.
  destruct w as [[sa sp sb su] t l]. mred. intros Hp Hu Hlt.
  apply Z.eqb_neq in Hp. apply Z.ltb_lt in Hu. apply Z.leb_gt in Hlt.
  rewrite Hp, Hu. cbn [negb]. mred. rewrite Hlt. reflexivity.
Qed.

(** *** The properties *)

(** One transaction changes the configuration of an API in two ways only:
    a registration of a free identifier, which makes the caller its
    provider, and an update sent by its provider, which keeps the provider
    and the payment token. *)
Theorem config_changes_only_by (w : World (T:=T)) tx a :
  let cfg := getApiConfig a w in
  let cfg' := getApiConfig a (step this keccak256 w tx) in
  cfg' = cfg \/
  (ApiConfig.provider cfg = 0 /\
   exists tok p m, snd tx = CallRegisterApi a tok p m /\ tok <> 0 /\ 0 < p /\
     cfg' = ApiConfig.mk (msg_sender (fst tx)) tok p m true) \/
  (ApiConfig.provider cfg <> 0 /\ msg_sender (fst tx) = ApiConfig.provider cfg /\
   exists p m act, snd tx = CallUpdateApiConfig a p m act /\
     cfg' = ApiConfig.mk (ApiConfig.provider cfg) (ApiConfig.paymentToken cfg) p m act).
Proof. exact (config_step w tx a). Qed.

(** Once an API has a provider, no sequence of transactions changes its
    provider or its payment token: it is never unregistered or taken
    over. *)
Theorem provider_and_token_immutable txs (w : World (T:=T)) a :
  ApiConfig.provider (getApiConfig a w) <> 0 ->
  ApiConfig.provider (getApiConfig a (run this keccak256 txs w))
    = ApiConfig.provider (getApiConfig a w) /\
  ApiConfig.paymentToken (getApiConfig a (run this keccak256 txs w))
    = ApiConfig.paymentToken (getApiConfig a w).
Proof. apply provider_token_run. Qed.

(** One transaction changes a prepaid balance in two ways only: a
    prepayment for that API and consumer adds its units, and a usage report
    for that API and consumer takes its units away, never more than the
    balance holds. *)
Theorem prepaid_changes_only_by (w : World (T:=T)) tx a c :
  let b := prepaidUnits a c w in
  let b' := prepaidUnits a c (step this keccak256 w tx) in
  b' = b \/
  (exists u, snd tx = CallPrepay a u c /\ 0 < u /\ b + u <= MAX_UINT256 /\
     b' = b + u) \/
  (exists u ref, snd tx = CallReportUsage a c u ref /\ 0 < u <= b /\ b' = b - u).
Proof. exact (prepaid_step w tx a c). Qed.

(** One transaction changes the revenue balance of an API in two ways
    only: the settlement of a reported usage of that API adds units times
    the recorded price, and a withdrawal sent by its provider takes the
    amount away, never more than the balance holds. *)
Theorem revenue_changes_only_by (w : World (T:=T)) tx a :
  let b := providerBalance a w in
  let b' := providerBalance a (step this keccak256 w tx) in
  b' = b \/
  (exists id, snd tx = CallSettleUsage id /\
     UsageRecord.status (getUsage id w) = UsageStatus.Reported /\
     UsageRecord.apiId (getUsage id w) = a /\
     b + UsageRecord.units (getUsage id w)
           * UsageRecord.pricePerUnitSnapshot (getUsage id w) <= MAX_UINT256 /\
     b' = b + UsageRecord.units (getUsage id w)
              * UsageRecord.pricePerUnitSnapshot (getUsage id w)) \/
  (exists amt to, snd tx = CallWithdrawProviderRevenue a amt to /\
     msg_sender (fst tx) = ApiConfig.provider (getApiConfig a w) /\
     0 < amt <= b /\ b' = b - amt).
Proof. exact (revenue_step w tx a). Qed.

(** A usage record comes into being through [reportUsage] only: when a
    transaction leaves a record where there was none, it is a report whose
    derived identifier is this one, for a registered API, within the
    consumer's balance, and the record holds the report's arguments and the
    API's price and token of that moment. *)
Theorem usage_created_only_by_report (w : World (T:=T)) tx id :
  UsageRecord.status (getUsage id w) = UsageStatus.None ->
  getUsage id (step this keccak256 w tx) = getUsage id w \/
  exists a c u ref, snd tx = CallReportUsage a c u ref /\
    id = keccak256 (encodePacked (fst tx) a c u ref) /\
    ApiConfig.provider (getApiConfig a w) <> 0 /\ 0 < u <= prepaidUnits a c w /\
    getUsage id (step this keccak256 w tx) =
      UsageRecord.mk a c u (ApiConfig.pricePerUnit (getApiConfig a w))
        (ApiConfig.paymentToken (getApiConfig a w)) UsageStatus.Reported ref.
Proof. apply usage_creation_step. Qed.

(** Called with arguments in the uint256 range, the contract keeps every
    prepaid balance, revenue balance and price between 0 and 2^256 - 1,
    every registered API has a payment token, and every usage record
    belongs to a registered API and has positive units. *)
Theorem balances_stay_in_range t txs :
  Forall (fun tx => Ranges.call_in_range (snd tx)) txs ->
  Ranges.sound (run this keccak256 txs (genesis t)).
Proof. intros Hall. apply sound_run; [apply sound_genesis | exact Hall]. Qed.

(** In a state the contract can reach, [settleUsage] on a reported record
    never fails with "API not found": it goes through unless the amount or
    the new revenue balance passes 2^256 - 1, and then it panics. *)
Theorem settle_reported_succeeds_or_overflows t txs e id :
  Forall (fun tx => Ranges.call_in_range (snd tx)) txs ->
  let w := run this keccak256 txs (genesis t) in
  let r := getUsage id w in
  UsageRecord.status r = UsageStatus.Reported ->
  (UsageRecord.units r * UsageRecord.pricePerUnitSnapshot r <= MAX_UINT256 /\
   providerBalance (UsageRecord.apiId r) w
     + UsageRecord.units r * UsageRecord.pricePerUnitSnapshot r <= MAX_UINT256 /\
   exists w', transact (settleUsage e id) w = (Success tt, w')) \/
  (MAX_UINT256 < providerBalance (UsageRecord.apiId r) w
     + UsageRecord.units r * UsageRecord.pricePerUnitSnapshot r /\
   transact (settleUsage e id) w = (Reverted (Panic 17), w)).
Proof.
  intros Hall. cbv zeta.
  pose proof (sound_run txs (genesis t) (sound_genesis t) Hall) as Hsound.
  revert Hsound. generalize (run this keccak256 txs (genesis t)).
  intros w (_ & _ & _ & Hrev & Hrec) Hs.
  destruct (Hrec id) as (Hp & Hu & Hsnap); [congruence|].
  specialize (Hrev (UsageRecord.apiId (getUsage id w))).
  unfold Ranges.is_uint256 in *.
  destruct (Z_le_gt_dec
              (providerBalance (UsageRecord.apiId (getUsage id w)) w
               + UsageRecord.units (getUsage id w)
                 * UsageRecord.pricePerUnitSnapshot (getUsage id w)) MAX_UINT256)
    as [Hle | Hgt].
  - left. assert (Hmul : UsageRecord.units (getUsage id w)
                 * UsageRecord.pricePerUnitSnapshot (getUsage id w) <= MAX_UINT256) by lia.
    split; [exact Hmul|]. split; [exact Hle|].
    apply settleUsage_succeeds; assumption.
  - right. split; [lia|].
    destruct w as [[sa sp sb su] tk l]. mred.
    rewrite Hs. cbn [UsageStatus.eqb]. mred.
    apply Z.eqb_neq in Hp. rewrite Hp. cbn [negb]. mred.
    destruct (_ <=? MAX_UINT256) eqn:E; mred; [|reflexivity].
    apply Z.gt_lt, Z.leb_gt in Hgt. rewrite Hgt. reflexivity.
Qed.

(** A reported record of a registered API whose units times price snapshot
    pass 2^256 - 1 can never be settled: whatever transactions follow, it
    stays as it is and [settleUsage] panics on it. *)
Theorem overflowing_record_never_settles txs e id (w : World (T:=T)) :
  UsageRecord.status (getUsage id w) = UsageStatus.Reported ->
  ApiConfig.provider (getApiConfig (UsageRecord.apiId (getUsage id w)) w) <> 0 ->
  MAX_UINT256 < UsageRecord.units (getUsage id w)
                * UsageRecord.pricePerUnitSnapshot (getUsage id w) ->
  getUsage id (run this keccak256 txs w) = getUsage id w /\
  transact (settleUsage e id) (run this keccak256 txs w) =
    (Reverted (Panic 17), run this keccak256 txs w).
Proof.
  intros Hs Hp Hov.
  pose proof (stuck_run txs w id Hs Hov) as Hrec.
  destruct (provider_token_run txs w _ Hp) as [Hprov _].
  rewrite <- Hprov in Hp. rewrite <- Hrec in Hs, Hov, Hp.
  split; [exact Hrec|]. clear Hrec Hprov.
  revert Hs Hov Hp. generalize (run this keccak256 txs w).
  intros [[sa sp sb su] tk l] Hs Hov Hp. mred.
  rewrite Hs. cbn [UsageStatus.eqb]. mred.
  apply Z.eqb_neq in Hp. rewrite Hp. cbn [negb]. mred.
  apply Z.leb_gt in Hov. rewrite Hov. reflexivity.
Qed.

(** The event log is append-only: a sequence of transactions leaves the
    old log as a prefix and adds at most one event per transaction. *)
Theorem log_append_only txs : forall (w : World (T:=T)),
  exists evs, log (run this keccak256 txs w) = log w ++ evs
              /\ (length evs <= length txs)%nat.
Proof.
  induction txs as [|tx txs IH]; intros w.
  - exists []. split; [symmetry; apply app_nil_r | cbn; lia].
  - change (run this keccak256 (tx :: txs) w)
      with (run this keccak256 txs (step this keccak256 w tx)).
    destruct (IH (step this keccak256 w tx)) as (evs2 & -> & Hlen2).
    destruct (log_step w tx) as (evs1 & -> & Hlen1).
    exists (evs1 ++ evs2). split; [symmetry; apply app_assoc|].
    rewrite length_app. cbn [length]. lia.
Qed.

(** Deactivating an API stops prepayments for it, with "API not active",
    whatever their arguments; it does not freeze what was prepaid: a report
    within the balance still goes through. *)
Theorem inactive_blocks_prepay_only a (w : World (T:=T)) :
  ApiConfig.provider (getApiConfig a w) <> 0 ->
  ApiConfig.active (getApiConfig a w) = false ->
  (forall e u c,
     transact (prepay this e a u c) w = (Reverted (Error "API not active"), w)) /\
  kind (Error "API not active") = Inactive /\
  (forall e c u ref,
     0 < u <= prepaidUnits a c w ->
     UsageRecord.status (getUsage (keccak256 (encodePacked e a c u ref)) w)
       = UsageStatus.None ->
     exists w', transact (reportUsage keccak256 e a c u ref) w
                = (Success (keccak256 (encodePacked e a c u ref)), w')).
Proof.
  intros Hp Hact. split; [|split; [reflexivity|]].
  - intros e u c. destruct w as [[sa sp sb su] t l]. mred.
    apply Z.eqb_neq in Hp. rewrite Hp, Hact. reflexivity.
  - intros e c u ref Hu Hfree. apply reportUsage_succeeds; [assumption|lia|lia|assumption].
Qed.

(** The provider's withdrawal of an amount within the balance, to a
    non-zero address, is decided by the token: when [transfer] returns
    true the balance goes down by exactly the amount, the tokens are those
    the transfer left and one event is logged; when it returns false or
    reverts, the withdrawal fails and nothing changes. *)
Theorem withdraw_follows_transfer e a amt to (w : World (T:=T)) :
  msg_sender e = ApiConfig.provider (getApiConfig a w) ->
  to <> 0 -> 0 < amt <= providerBalance a w ->
  match transfer (ApiConfig.paymentToken (getApiConfig a w)) this to amt (tokens w) with
  | Returned true t' =>
      exists w', transact (withdrawProviderRevenue this e a amt to) w = (Success tt, w') /\
        providerBalance a w' = providerBalance a w - amt /\
        (forall a', a' <> a -> providerBalance a' w' = providerBalance a' w) /\
        tokens w' = t' /\
        log w' = log w ++ [ProviderWithdraw a (msg_sender e) amt
                             (ApiConfig.paymentToken (getApiConfig a w))]
  | Returned false _ =>
      transact (withdrawProviderRevenue this e a amt to) w
        = (Reverted (Error "Token transfer failed"), w)
  | CallReverted =>
      transact (withdrawProviderRevenue this e a amt to) w = (Reverted Bubbled, w)
  end.
Proof.
  intros Hs Hto Hamt. destruct w as [[sa sp sb su] t l]. mred.
  rewrite Hs, Z.eqb_refl. mred.
  apply Z.eqb_neq in Hto. rewrite Hto. cbn [negb]. mred.
  destruct Hamt as [H1 H2]. apply Z.ltb_lt in H1. pose proof H2 as H3.
  apply Z.leb_le in H2. rewrite H1, H2. cbn [andb]. mred. rewrite ?H2. mred.
  destruct (transfer _ _ _ _ _) as [[|] t'|]; mred; [|reflexivity|reflexivity].
  eexists. split; [reflexivity|]. mred. rewrite lookup_insert_eq.
  split; [reflexivity|]. split; [|split; reflexivity].
  intros a' Hne. rewrite lookup_insert_ne by congruence. reflexivity.
Qed.

Lemma run_nil (w : World (T:=T)) : run this keccak256 [] w = w.
Proof. reflexivity. Qed.

End Proofs.

Import Scenario.

Ltac compute_all :=
  repeat match goal with |- _ /\ _ => split end; vm_compute; reflexivity.

(** The scenario of the specification, run on the code: balances 5 then 4,
    revenue 2 although the live price is 7 by then, second settlement
    refused. *)
Example scenario_runs :
  prepaidUnits apiA consumerC w_prepaid = 5 /\
  prepaidUnits apiA consumerC w_reported = 4 /\
  UsageRecord.status (getUsage usage1 w_reported) = UsageStatus.Reported /\
  ApiConfig.pricePerUnit (getApiConfig apiA w_repriced) = 7 /\
  providerBalance apiA w_settled = 2 /\
  exec [tx_settle] w_settled = w_settled.
Proof. compute_all. Qed.

(** A report repeated in the same block derives the same identifier: the
    body has already debited the balance when the existence check fails,
    and the revert puts it back. *)
Example duplicate_report_is_rolled_back :
  fst (reportUsage MockToken.hash (env gateway 3) apiA consumerC 1 "ref1" w_reported)
    = inl (Error "Usage already exists") /\
  prepaidUnits apiA consumerC
    (snd (reportUsage MockToken.hash (env gateway 3) apiA consumerC 1 "ref1" w_reported))
    = 3 /\
  transact (reportUsage MockToken.hash (env gateway 3) apiA consumerC 1 "ref1")
    w_reported = (Reverted (Error "Usage already exists"), w_reported) /\
  prepaidUnits apiA consumerC w_reported = 4.
Proof. compute_all. Qed.

(** The report of the scenario: one unit, against a balance of 5 and a
    price of 2. *)
Lemma reportUsage_debits_and_records_witness :
  transact (reportUsage MockToken.hash (env gateway 3) apiA consumerC 1 "ref1")
    w_prepaid = (Success usage1, w_reported) /\
  (prepaidUnits apiA consumerC w_reported = prepaidUnits apiA consumerC w_prepaid - 1 /\
   getUsage usage1 w_reported =
     UsageRecord.mk apiA consumerC 1
       (ApiConfig.pricePerUnit (getApiConfig apiA w_prepaid))
       (ApiConfig.paymentToken (getApiConfig apiA w_prepaid))
       UsageStatus.Reported "ref1") /\
  ApiConfig.pricePerUnit (getApiConfig apiA w_prepaid) = 2.
Proof.
  assert (H : transact (reportUsage MockToken.hash (env gateway 3) apiA consumerC 1 "ref1")
                w_prepaid = (Success usage1, w_reported)) by (vm_compute; reflexivity).
  split; [exact H|]. split; [|vm_compute; reflexivity].
  exact (proj2 (reportUsage_debits_and_records MockToken.hash
                  (env gateway 3) apiA consumerC 1 "ref1" w_prepaid
                  (Success usage1) w_reported H) usage1 eq_refl).
Defined.

(** The settlement of the scenario, after the live price went from 2 to 7:
    the revenue grows by 1 * 2, and the next settlement is refused. *)
Lemma settleUsage_once_at_snapshot_witness :
  transact (settleUsage (env gateway 5) usage1) w_repriced = (Success tt, w_settled) /\
  ApiConfig.pricePerUnit (getApiConfig apiA w_repriced) = 7 /\
  providerBalance apiA w_settled = providerBalance apiA w_repriced + 1 * 2 /\
  transact (settleUsage (env gateway 6) usage1) w_settled =
    (Reverted (Error "Usage not reportable/settleable"), w_settled).
Proof.
  assert (H : transact (settleUsage (env gateway 5) usage1) w_repriced
              = (Success tt, w_settled)) by (vm_compute; reflexivity).
  split; [exact H|]. split; [vm_compute; reflexivity|].
  destruct (settleUsage_once_at_snapshot this MockToken.hash
              (env gateway 5) usage1 w_repriced w_settled H)
    as (Hbal & Hagain & _ & _).
  split.
  - vm_compute in Hbal. vm_compute. exact Hbal.
  - specialize (Hagain [] (env gateway 6)). rewrite run_nil in Hagain. exact Hagain.
Defined.

(** Ten units against a balance of 4. *)
Lemma revert_is_atomic_witness :
  transact (reportUsage MockToken.hash (env gateway 6) apiA consumerC 10 "ref2")
    w_reported = (Reverted (Error "Insufficient prepaid units"), w_reported) /\
  prepaidUnits apiA consumerC w_reported = 4.
Proof.
  split; [|vm_compute; reflexivity].
  destruct (revert_is_atomic this MockToken.hash (env gateway 6) w_reported)
    as (_ & _ & _ & _ & Hins & _).
  destruct (Hins apiA consumerC 10 "ref2") as [Hrun _].
  - vm_compute. discriminate.
  - vm_compute. reflexivity.
  - vm_compute. reflexivity.
  - exact Hrun.
Defined.

(** The prepayment of the scenario: 5 units at price 2 move 10 tokens from
    the consumer to the contract. *)
Lemma prepay_credits_and_charges_witness :
  transact (prepay this (env consumerC 2) apiA 5 consumerC) w_registered
    = (Success tt, w_prepaid) /\
  prepaidUnits apiA consumerC w_prepaid = prepaidUnits apiA consumerC w_registered + 5 /\
  ApiConfig.pricePerUnit (getApiConfig apiA w_registered) = 2 /\
  MockToken.bal token consumerC (tokens w_prepaid) =
    MockToken.bal token consumerC (tokens w_registered) - 2 * 5 /\
  MockToken.bal token this (tokens w_prepaid) =
    MockToken.bal token this (tokens w_registered) + 2 * 5.
Proof.
  assert (H : transact (prepay this (env consumerC 2) apiA 5 consumerC) w_registered
              = (Success tt, w_prepaid)) by (vm_compute; reflexivity).
  split; [exact H|].
  destruct (prepay_credits_and_charges this (env consumerC 2) apiA 5 consumerC
              w_registered w_prepaid H) as (_ & Hunits & _).
  split; [exact Hunits|]. compute_all.
Defined.

(** Two units at price 2^255. *)
Lemma prepay_overflow_reverts_witness :
  MAX_UINT256 < ApiConfig.pricePerUnit (getApiConfig apiA w_huge) * 2 /\
  transact (prepay this (env consumerC 2) apiA 2 consumerC) w_huge
    = (Reverted (Panic 17), w_huge).
Proof.
  assert (H : MAX_UINT256 < ApiConfig.pricePerUnit (getApiConfig apiA w_huge) * 2)
    by (vm_compute; reflexivity).
  split; [exact H|].
  destruct (prepay_overflow_reverts this (env consumerC 2) apiA 2 consumerC w_huge H)
    as [_ Hpanic].
  apply Hpanic.
  - vm_compute. discriminate.
  - vm_compute. reflexivity.
  - vm_compute. reflexivity.
  - vm_compute. discriminate.
Defined.

(** C4 fails on the code: on an API that was never registered, a
    withdrawal and a configuration update are both turned away with "Not
    API provider", which is Unauthorized and not NotFound. *)
Lemma unregistered_is_unauthorized :
  ApiConfig.provider (getApiConfig apiA w0) = 0 /\
  transact (withdrawProviderRevenue this (env providerP 1) apiA 5 providerP) w0
    = (Reverted (Error "Not API provider"), w0) /\
  transact (updateApiConfig (env providerP 1) apiA 3 "ipfs://demo" true) w0
    = (Reverted (Error "Not API provider"), w0) /\
  kind (Error "Not API provider") <> NotFound.
Proof.
  split; [vm_compute; reflexivity|]. split; [vm_compute; reflexivity|].
  split; [vm_compute; reflexivity|]. vm_compute. discriminate.
Qed.

(** On the settled scenario (revenue 2): the gateway is not the provider,
    and the provider asks for 3. *)
Lemma provider_gate_witness :
  transact (withdrawProviderRevenue this (env gateway 6) apiA 1 gateway) w_settled
    = (Reverted (Error "Not API provider"), w_settled) /\
  transact (updateApiConfig (env gateway 6) apiA 1 "ipfs://demo" true) w_settled
    = (Reverted (Error "Not API provider"), w_settled) /\
  exists f,
    transact (withdrawProviderRevenue this (env providerP 6) apiA 3 providerP) w_settled
      = (Reverted f, w_settled) /\ kind f = InvalidArgument.
Proof.
  destruct (provider_gate this (env gateway 6) apiA w_settled) as (Hw & Hu & _ & _).
  destruct (provider_gate this (env providerP 6) apiA w_settled) as (_ & _ & _ & Ha).
  split; [|split].
  - apply Hw. vm_compute. discriminate.
  - apply Hu; vm_compute; discriminate.
  - apply Ha; [vm_compute; reflexivity|]. right. vm_compute. reflexivity.
Defined.

(** C5 fails on the code: after a registration at price 2, the provider's
    [updateApiConfig] with price 0 goes through; the API stays registered
    and active at price 0, and a prepayment of 5 units then credits the
    units while no token moves. *)
Theorem updateApiConfig_accepts_zero_price :
  reachable this MockToken.hash w_zero_price /\
  transact (updateApiConfig (env providerP 4) apiA 0
              "ipfs://demo-x402-api/demo/hello" true) w_registered
    = (Success tt, w_zero_price) /\
  ApiConfig.provider (getApiConfig apiA w_zero_price) = providerP /\
  ApiConfig.pricePerUnit (getApiConfig apiA w_zero_price) = 0 /\
  prepaidUnits apiA consumerC (exec [tx_prepay] w_zero_price) = 5 /\
  MockToken.bal token consumerC (tokens (exec [tx_prepay] w_zero_price)) =
    MockToken.bal token consumerC (tokens w_zero_price).
Proof.
  split; [exists t0, [tx_register; tx_reprice 0]; vm_compute; reflexivity|].
  compute_all.
Qed.

Import Cases.

(** Through the scenario the API keeps provider 7 and token 2000. *)
Lemma provider_and_token_immutable_witness :
  ApiConfig.provider (getApiConfig apiA w_registered) <> 0 /\
  ApiConfig.provider
    (getApiConfig apiA
       (run this MockToken.hash [tx_prepay; tx_report; tx_reprice 7; tx_settle]
          w_registered))
    = ApiConfig.provider (getApiConfig apiA w_registered) /\
  ApiConfig.paymentToken
    (getApiConfig apiA
       (run this MockToken.hash [tx_prepay; tx_report; tx_reprice 7; tx_settle]
          w_registered))
    = ApiConfig.paymentToken (getApiConfig apiA w_registered).
Proof.
  assert (H : ApiConfig.provider (getApiConfig apiA w_registered) <> 0)
    by (vm_compute; discriminate).
  split; [exact H|].
  exact (provider_and_token_immutable this MockToken.hash
           [tx_prepay; tx_report; tx_reprice 7; tx_settle] w_registered apiA H).
Defined.

(** The gateway cannot register the scenario's API again, at any stage. *)
Lemma registerApi_at_most_once_witness :
  ApiConfig.provider (getApiConfig apiA w_registered) <> 0 /\
  transact (registerApi (env gateway 9) apiA token 1 "mine")
    (run this MockToken.hash [tx_prepay; tx_report] w_registered) =
    (Reverted (Error "API already exists"),
     run this MockToken.hash [tx_prepay; tx_report] w_registered).
Proof.
  assert (H : ApiConfig.provider (getApiConfig apiA w_registered) <> 0)
    by (vm_compute; discriminate).
  split; [exact H|].
  exact (registerApi_at_most_once this MockToken.hash [tx_prepay; tx_report]
           (env gateway 9) apiA token 1 "mine" w_registered H).
Defined.

(** The record of the scenario did not exist before its report. *)
Lemma usage_created_only_by_report_witness :
  UsageRecord.status (getUsage usage1 w_prepaid) = UsageStatus.None /\
  UsageRecord.status (getUsage usage1 (step this MockToken.hash w_prepaid tx_report))
    = UsageStatus.Reported.
Proof.
  assert (H : UsageRecord.status (getUsage usage1 w_prepaid) = UsageStatus.None)
    by (vm_compute; reflexivity).
  split; [exact H|].
  destruct (usage_created_only_by_report this MockToken.hash w_prepaid tx_report
              usage1 H) as [Heq | (a & c & u & ref & _ & _ & _ & _ & Heq)].
  - vm_compute. reflexivity.
  - rewrite Heq. reflexivity.
Defined.

(** The scenario is made of well-ranged calls, so its state is sound. *)
Lemma balances_stay_in_range_witness :
  Forall (fun tx => Ranges.call_in_range (snd tx)) history /\
  Ranges.sound (run this MockToken.hash history (genesis t0)).
Proof.
  assert (H : Forall (fun tx => Ranges.call_in_range (snd tx)) history).
  { repeat constructor; vm_compute; discriminate. }
  split; [exact H|].
  exact (balances_stay_in_range this MockToken.hash t0 history H).
Defined.

(** The reported usage of the scenario can be settled. *)
Lemma settle_reported_succeeds_or_overflows_witness :
  UsageRecord.status (getUsage usage1 (run this MockToken.hash history (genesis t0)))
    = UsageStatus.Reported /\
  exists w', transact (settleUsage (env gateway 5) usage1)
               (run this MockToken.hash history (genesis t0)) = (Success tt, w').
Proof.
  assert (H : Forall (fun tx => Ranges.call_in_range (snd tx)) history).
  { repeat constructor; vm_compute; discriminate. }
  assert (Hs : UsageRecord.status
                 (getUsage usage1 (run this MockToken.hash history (genesis t0)))
               = UsageStatus.Reported) by (vm_compute; reflexivity).
  split; [exact Hs|].
  destruct (settle_reported_succeeds_or_overflows this MockToken.hash t0 history
              (env gateway 5) usage1 H Hs) as [(_ & _ & Hok) | [Hov _]].
  - exact Hok.
  - vm_compute in Hov. discriminate.
Defined.

(** Two units prepaid at price 1 and reported at price 2^255 are stuck:
    no later transaction, here a return to price 1, lets them settle. *)
Lemma overflowing_record_never_settles_witness :
  UsageRecord.status (getUsage usage_big w_stuck) = UsageStatus.Reported /\
  transact (settleUsage (env gateway 6) usage_big)
    (run this MockToken.hash
       [(env providerP 5, CallUpdateApiConfig apiA 1 "ipfs://demo" true)] w_stuck) =
    (Reverted (Panic 17),
     run this MockToken.hash
       [(env providerP 5, CallUpdateApiConfig apiA 1 "ipfs://demo" true)] w_stuck).
Proof.
  assert (Hs : UsageRecord.status (getUsage usage_big w_stuck) = UsageStatus.Reported)
    by (vm_compute; reflexivity).
  split; [exact Hs|].
  apply (overflowing_record_never_settles this MockToken.hash
           [(env providerP 5, CallUpdateApiConfig apiA 1 "ipfs://demo" true)]
           (env gateway 6) usage_big w_stuck Hs).
  - vm_compute. discriminate.
  - vm_compute. reflexivity.
Defined.

(** After the deactivation the consumer can prepay no more, and the five
    units prepaid before can still be reported. *)
Lemma inactive_blocks_prepay_only_witness :
  ApiConfig.active (getApiConfig apiA w_inactive) = false /\
  transact (prepay this (env consumerC 5) apiA 1 consumerC) w_inactive
    = (Reverted (Error "API not active"), w_inactive) /\
  exists w', transact (reportUsage MockToken.hash (env gateway 5) apiA consumerC 1 "ref1")
               w_inactive
             = (Success (MockToken.hash
                           (encodePacked (env gateway 5) apiA consumerC 1 "ref1")), w').
Proof.
  assert (Hp : ApiConfig.provider (getApiConfig apiA w_inactive) <> 0)
    by (vm_compute; discriminate).
  assert (Ha : ApiConfig.active (getApiConfig apiA w_inactive) = false)
    by (vm_compute; reflexivity).
  split; [exact Ha|].
  destruct (inactive_blocks_prepay_only this MockToken.hash apiA w_inactive Hp Ha)
    as (Hpre & _ & Hrep).
  split; [apply Hpre|]. apply Hrep.
  - vm_compute. split; [reflexivity | discriminate].
  - vm_compute. reflexivity.
Defined.

(** The provider withdraws the revenue of the scenario: the balance goes
    from 2 to 0 and two tokens leave the contract. *)
Lemma withdraw_follows_transfer_witness :
  transfer (ApiConfig.paymentToken (getApiConfig apiA w_settled)) this providerP 2
    (tokens w_settled) = Returned true (tokens w_withdrawn) /\
  (exists w',
     transact (withdrawProviderRevenue this (env providerP 6) apiA 2 providerP) w_settled
       = (Success tt, w') /\
     providerBalance apiA w' = providerBalance apiA w_settled - 2 /\
     tokens w' = tokens w_withdrawn) /\
  MockToken.bal token providerP (tokens w_withdrawn) = 2 /\
  MockToken.bal token this (tokens w_withdrawn) = 8.
Proof.
  assert (Htr : transfer (ApiConfig.paymentToken (getApiConfig apiA w_settled)) this
                  providerP 2 (tokens w_settled) = Returned true (tokens w_withdrawn))
    by (vm_compute; reflexivity).
  split; [exact Htr|]. split; [|split; vm_compute; reflexivity].
  pose proof (withdraw_follows_transfer this (env providerP 6) apiA 2 providerP w_settled)
    as H.
  rewrite Htr in H.
  destruct H as (w' & Hrun & Hbal & _ & Htok & _).
  - vm_compute. reflexivity.
  - discriminate.
  - vm_compute. split; [reflexivity | discriminate].
  - exists w'. auto.
Defined.

End Ledger.

(** * Properties of the request check *)
Module GatewayFacts.
Import Gateway.

Section Proofs.
Variable StringToNumber : string -> Num.
Variable StringToBigInt : string -> option Z.
Variable isAddress : Value -> bool.
Variable verifyTypedData :
  Domain -> list (string * string) -> Message -> Value -> option string.

Local Abbreviation verify :=
  (verifySignedRequest StringToNumber StringToBigInt isAddress verifyTypedData).

(** The number 0, however it is written, is falsy. *)
Lemma truthy_zero q : (q == 0)%Q -> truthy (JsNumber (Finite q)) = false.
Proof.
  intros Hq. cbn [truthy]. apply Qeq_bool_iff in Hq. rewrite Hq. reflexivity.
Qed.


(** C9: a request whose nonce or deadline is the number 0 is rejected with
    a Malformed error, and with "Missing nonce/deadline/signature" when its
    consumer passes the first check: the number 0 is falsy, so the field
    counts as absent. *)
Theorem zero_nonce_or_deadline_rejected dom now body api q :
  (q == 0)%Q ->
  field body "nonce" = JsNumber (Finite q) \/
  field body "deadline" = JsNumber (Finite q) ->
  (exists m, verify dom now body api = inl (JsError m)
             /\ verify_kind (JsError m) = Malformed) /\
  (truthy (field body "consumer") = true ->
   isAddress (field body "consumer") = true ->
   verify dom now body api = inl (JsError "Missing nonce/deadline/signature")).
Proof.
  intros Hq Hf. apply truthy_zero in Hq.
  assert (Hmiss : negb (truthy (field body "nonce"))
                  || negb (truthy (field body "deadline"))
                  || negb (truthy (field body "signature")) = true).
  { destruct Hf as [-> | ->]; rewrite Hq; cbn [negb orb];
      [reflexivity|]. rewrite orb_true_r. reflexivity. }
  unfold verifySignedRequest. rewrite Hmiss. split.
  - destruct (negb (truthy (field body "consumer")) || _);
      eexists; split; reflexivity.
  - intros -> ->. reflexivity.
Qed.
(** ** Further properties of the request check *)

(** What an accepted request went through. *)
Lemma verify_inr dom now body api r :
  verify dom now body api = inr r ->
  r = mkSignedRequest (field body "consumer") (field body "nonce")
        (field body "deadline") (field body "signature") /\
  truthy (field body "consumer") = true /\
  isAddress (field body "consumer") = true /\
  truthy (field body "nonce") = true /\
  truthy (field body "deadline") = true /\
  truthy (field body "signature") = true /\
  lt (Number StringToNumber (field body "deadline"))
     (Finite (inject_Z (nowSec now))) = false /\
  exists c n d recovered,
    field body "consumer" = JsString c /\
    BigInt StringToBigInt (field body "nonce") = inr n /\
    BigInt StringToBigInt (field body "deadline") = inr d /\
    verifyTypedData dom EIP712_TYPES (mkMessage (JsString c) api n d)
      (field body "signature") = Some recovered /\
    toLowerCase recovered = toLowerCase c.
Proof.
  unfold verifySignedRequest.
  destruct (truthy (field body "consumer")); cbn [negb orb]; [|discriminate].
  destruct (isAddress (field body "consumer")); cbn [negb orb]; [|discriminate].
  destruct (truthy (field body "nonce")); cbn [negb orb]; [|discriminate].
  destruct (truthy (field body "deadline")); cbn [negb orb]; [|discriminate].
  destruct (truthy (field body "signature")); cbn [negb orb]; [|discriminate].
  destruct (lt _ _); [discriminate|].
  destruct (BigInt StringToBigInt (field body "nonce")) as [?|n]; [discriminate|].
  destruct (BigInt StringToBigInt (field body "deadline")) as [?|d]; [discriminate|].
  destruct (verifyTypedData _ _ _ _) as [recovered|] eqn:Hrec; [|discriminate].
  destruct (field body "consumer") as [| | | |c|] eqn:Hc; try discriminate.
  destruct (String.eqb (toLowerCase recovered) (toLowerCase c)) eqn:Heq;
    cbn [negb]; [|discriminate].
  intros Hr. injection Hr as <-. apply String.eqb_eq in Heq.
  repeat split; try reflexivity. exists c, n, d, recovered. auto.
Qed.

(** An accepted request is a signed one: its consumer is a string that
    passed [isAddress], and [verifyTypedData], run on the domain and on the
    message made of that consumer, the API of the endpoint, and the nonce
    and deadline as integers, recovered the consumer's address up to letter
    case. The fields come back as they were sent. *)
Theorem accepted_request_is_signed dom now body api r :
  verify dom now body api = inr r ->
  consumer r = field body "consumer" /\ nonce r = field body "nonce" /\
  deadline r = field body "deadline" /\ signature r = field body "signature" /\
  isAddress (consumer r) = true /\
  exists c n d recovered,
    consumer r = JsString c /\
    BigInt StringToBigInt (nonce r) = inr n /\
    BigInt StringToBigInt (deadline r) = inr d /\
    verifyTypedData dom EIP712_TYPES (mkMessage (JsString c) api n d) (signature r)
      = Some recovered /\
    toLowerCase recovered = toLowerCase c.
Proof.
  intros H. apply verify_inr in H.
  destruct H as (-> & _ & Ha & _ & _ & _ & _ & c & n & d & rec & Hc & Hn & Hd & Hv & Hl).
  cbn [consumer nonce deadline signature]. repeat split; try assumption.
  exists c, n, d, rec. auto.
Qed.

(** No nonce is remembered: a request accepted once is accepted again, with
    the same answer, at any time at which its deadline has not passed. *)
Theorem verify_replayable dom now1 now2 body api r :
  verify dom now1 body api = inr r ->
  lt (Number StringToNumber (field body "deadline"))
     (Finite (inject_Z (nowSec now2))) = false ->
  verify dom now2 body api = inr r.
Proof.
  intros H Hlive. pose proof (verify_inr _ _ _ _ _ H)
    as (-> & Hc & Ha & Hn & Hd & Hs & _ & c & n & d & rec & Hcs & Hbn & Hbd & Hv & Hl).
  unfold verifySignedRequest. rewrite Hc, Ha, Hn, Hd, Hs. cbn [negb orb].
  rewrite Hlive, Hbn, Hbd. rewrite Hcs in *. rewrite Hv.
  rewrite Hl, String.eqb_refl. reflexivity.
Qed.

(** [BigInt] throws builtin exceptions only. *)
Lemma BigInt_raises v t :
  BigInt StringToBigInt v = inl t -> exists n, t = Raised n.
Proof.
  destruct v as [| |b|[| |q]|s|s]; cbn [BigInt]; intros H;
    try (injection H as <-; eauto; fail); try discriminate.
  - destruct (Qeq_bool _ _); [discriminate | injection H as <-; eauto].
  - destruct (StringToBigInt s); [discriminate | injection H as <-; eauto].
  - destruct (StringToBigInt s); [discriminate | injection H as <-; eauto].
Qed.

Lemma lt_inject_Z a b : lt (Finite (inject_Z a)) (Finite (inject_Z b)) = (a <? b).
Proof.
  cbn [lt]. destruct (Z.ltb_spec a b) as [Hlt|Hge].
  - apply negb_true_iff. destruct (Qle_bool (inject_Z b) (inject_Z a)) eqn:E;
      [|reflexivity].
    apply Qle_bool_iff in E. rewrite <- Zle_Qle in E. lia.
  - apply negb_false_iff. apply Qle_bool_iff. rewrite <- Zle_Qle. exact Hge.
Qed.

Lemma truthy_inject_Z d : truthy (JsNumber (Finite (inject_Z d))) = negb (d =? 0).
Proof.
  cbn [truthy]. f_equal. destruct (Z.eqb_spec d 0) as [->|Hne]; [reflexivity|].
  destruct (Qeq_bool (inject_Z d) 0) eqn:E; [|reflexivity].
  apply Qeq_bool_iff in E. unfold Qeq, inject_Z in E. cbn [Qnum Qden] in E. lia.
Qed.

(** The expiry test works on whole seconds: a well-formed request whose
    deadline is the integer [d] is turned away as expired exactly from the
    millisecond 1000 d + 1000 on; through the whole second [d] it still
    passes the test. *)
Theorem deadline_boundary dom now body api d :
  truthy (field body "consumer") = true ->
  isAddress (field body "consumer") = true ->
  truthy (field body "nonce") = true ->
  truthy (field body "signature") = true ->
  field body "deadline" = JsNumber (Finite (inject_Z d)) -> d <> 0 ->
  (verify dom now body api = inl (JsError "Signature expired")
   <-> 1000 * d + 999 < now).
Proof.
  intros Hc Ha Hn Hs Hd Hd0. unfold verifySignedRequest.
  rewrite Hc, Ha, Hn, Hs, Hd, truthy_inject_Z. cbn [negb orb Number].
  apply Z.eqb_neq in Hd0. rewrite Hd0. cbn [negb orb].
  rewrite lt_inject_Z. unfold nowSec.
  pose proof (Z.div_mod now 1000 ltac:(lia)) as Hdiv.
  pose proof (Z.mod_pos_bound now 1000 ltac:(lia)) as Hmod.
  destruct (Z.ltb_spec d (now / 1000)) as [Hlt|Hge].
  - split; [intros _; lia | reflexivity].
  - split; [|intros; lia].
    destruct (BigInt StringToBigInt (field body "nonce")) as [t|n] eqn:E1;
      [apply BigInt_raises in E1 as [? ->]; discriminate|].
    destruct (BigInt StringToBigInt (JsNumber (Finite (inject_Z d)))) as [t|d'] eqn:E2;
      [apply BigInt_raises in E2 as [? ->]; discriminate|].
    destruct (verifyTypedData _ _ _ _) as [rec|]; [|discriminate].
    destruct (field body "consumer"); try discriminate.
    destruct (negb _); discriminate.
Qed.

End Proofs.

Import Gateway.Examples.



(** The string "0" is not falsy: only the number 0 reads as absent. *)
Example string_zero_is_present :
  truthy (JsString "0") = true /\ truthy (JsNumber (Finite 0)) = false.
Proof. split; reflexivity. Qed.

(** A fresh request with nonce 0 is turned away; with nonce 1 it is
    accepted. *)
Lemma zero_nonce_or_deadline_rejected_witness :
  field body_nonce0 "nonce" = JsNumber (Finite 0) /\
  Demo.verify domain now_ms body_nonce0 api_hello =
    inl (JsError "Missing nonce/deadline/signature") /\
  Demo.verify domain now_ms body_fresh api_hello =
    inr (mkSignedRequest (JsString consumer_addr) (JsNumber (Finite 1))
           (JsNumber (Finite (inject_Z 1800000000))) (JsString consumer_addr)).
Proof.
  assert (H : field body_nonce0 "nonce" = JsNumber (Finite 0))
    by (vm_compute; reflexivity).
  split; [exact H|]. split.
  - apply (zero_nonce_or_deadline_rejected Demo.StringToNumber Demo.StringToBigInt
             Demo.isAddress Demo.verifyTypedData domain now_ms body_nonce0 api_hello
             0%Q (Qeq_refl 0) (or_introl H)); vm_compute; reflexivity.
  - vm_compute; reflexivity.
Defined.
(** The fresh request of the examples is accepted and comes back as
    sent. *)
Lemma accepted_request_is_signed_witness :
  Demo.verify domain now_ms body_fresh api_hello =
    inr (mkSignedRequest (JsString consumer_addr) (JsNumber (Finite 1))
           (JsNumber (Finite (inject_Z 1800000000))) (JsString consumer_addr)) /\
  Demo.isAddress
    (consumer (mkSignedRequest (JsString consumer_addr) (JsNumber (Finite 1))
                 (JsNumber (Finite (inject_Z 1800000000))) (JsString consumer_addr)))
    = true.
Proof.
  assert (H : Demo.verify domain now_ms body_fresh api_hello =
    inr (mkSignedRequest (JsString consumer_addr) (JsNumber (Finite 1))
           (JsNumber (Finite (inject_Z 1800000000))) (JsString consumer_addr)))
    by (vm_compute; reflexivity).
  split; [exact H|].
  destruct (accepted_request_is_signed Demo.StringToNumber Demo.StringToBigInt
              Demo.isAddress Demo.verifyTypedData _ _ _ _ _ H)
    as (_ & _ & _ & _ & Ha & _).
  exact Ha.
Defined.

(** The same request, sent again a minute later, is accepted again. *)
Lemma verify_replayable_witness :
  Demo.verify domain now_ms body_fresh api_hello =
    inr (mkSignedRequest (JsString consumer_addr) (JsNumber (Finite 1))
           (JsNumber (Finite (inject_Z 1800000000))) (JsString consumer_addr)) /\
  Demo.verify domain (now_ms + 60000) body_fresh api_hello =
    inr (mkSignedRequest (JsString consumer_addr) (JsNumber (Finite 1))
           (JsNumber (Finite (inject_Z 1800000000))) (JsString consumer_addr)).
Proof.
  assert (H : Demo.verify domain now_ms body_fresh api_hello =
    inr (mkSignedRequest (JsString consumer_addr) (JsNumber (Finite 1))
           (JsNumber (Finite (inject_Z 1800000000))) (JsString consumer_addr)))
    by (vm_compute; reflexivity).
  split; [exact H|].
  apply (verify_replayable Demo.StringToNumber Demo.StringToBigInt
           Demo.isAddress Demo.verifyTypedData domain now_ms (now_ms + 60000)
           body_fresh api_hello _ H).
  vm_compute. reflexivity.
Defined.

(** The deadline 1800000000 is live at the last millisecond of its second
    and expired at the next. *)
Lemma deadline_boundary_witness :
  field body_fresh "deadline" = JsNumber (Finite (inject_Z 1800000000)) /\
  Demo.verify domain 1800000000999 body_fresh api_hello
    <> inl (JsError "Signature expired") /\
  Demo.verify domain 1800000001000 body_fresh api_hello
    = inl (JsError "Signature expired").
Proof.
  assert (Hd : field body_fresh "deadline" = JsNumber (Finite (inject_Z 1800000000)))
    by (vm_compute; reflexivity).
  assert (Hb : forall now,
            Demo.verify domain now body_fresh api_hello = inl (JsError "Signature expired")
            <-> 1000 * 1800000000 + 999 < now).
  { intros now.
    apply (deadline_boundary Demo.StringToNumber Demo.StringToBigInt
             Demo.isAddress Demo.verifyTypedData domain now body_fresh api_hello
             1800000000); try (vm_compute; reflexivity). discriminate. }
  split; [exact Hd|]. split.
  - intros H. apply Hb in H. lia.
  - apply Hb. lia.
Defined.

End GatewayFacts.

(** * Properties of the API identifiers *)
Module ApiIdFacts.
Import ApiId.
Local Open Scope nat_scope.

Lemma repeat_char_length c n : String.length (repeat_char c n) = n.
Proof. induction n as [|n IH]; cbn; [reflexivity | now rewrite IH]. Qed.

Lemma toHex_length s : String.length (toHex s) = (2 * String.length s)%nat.
Proof. induction s as [|c s IH]; cbn [toHex String.length]; [reflexivity | lia]. Qed.

Lemma append_cons c (a b : string) : String c a +:+ b = String c (a +:+ b).
Proof. reflexivity. Qed.

Lemma append_nil (b : string) : "" +:+ b = b.
Proof. reflexivity. Qed.

Lemma string_app_length (a b : string) :
  String.length (a +:+ b) = (String.length a + String.length b)%nat.
Proof.
  induction a as [|c a IH]; [reflexivity|].
  rewrite append_cons. cbn [String.length]. rewrite IH. reflexivity.
Qed.

(** A byte is read back from its two digits. *)
Lemma hex_value_digits c :
  (hex_value (hex_digit (nat_of_ascii c / 16)) * 16
   + hex_value (hex_digit (nat_of_ascii c mod 16)))%nat = nat_of_ascii c.
Proof.
  destruct c as [[] [] [] [] [] [] [] []]; vm_compute; reflexivity.
Qed.

Lemma fromHex_toHex s : forall k fuel,
  nul_free s -> (String.length s + k <= fuel)%nat ->
  fromHex fuel (toHex s ++ repeat_char "0" (2 * k)) = s.
Proof.
  induction s as [|c s IH]; intros k fuel Hnf Hfuel.
  - cbn [toHex]. rewrite append_nil. destruct k as [|k].
    + destruct fuel; reflexivity.
    + destruct fuel as [|fuel]; [cbn in Hfuel; lia|].
      replace (2 * S k)%nat with (S (S (2 * k))) by lia. reflexivity.
  - destruct Hnf as [Hc Hnf]. destruct fuel as [|fuel]; [cbn in Hfuel; lia|].
    cbn [toHex]. rewrite !append_cons. cbn [fromHex]. rewrite hex_value_digits.
    destruct (Nat.eqb_spec (nat_of_ascii c) 0) as [H0|_]; [contradiction|].
    rewrite ascii_nat_embedding. f_equal. apply IH; [assumption|].
    cbn [String.length] in Hfuel. lia.
Qed.

(** [toAPIId] gives "0x" and at least 64 digits: exactly the 66 characters
    of a bytes32 literal for a key of at most 32 bytes; a longer key is not
    cut, and its identifier is longer than a bytes32. *)
Theorem toAPIId_length str :
  String.length (toAPIId str) = (2 + Nat.max 64 (2 * String.length str))%nat /\
  (String.length str <= 32 -> String.length (toAPIId str) = 66)%nat /\
  (32 < String.length str -> 66 < String.length (toAPIId str))%nat.
Proof.
  assert (H : String.length (toAPIId str)
              = (2 + Nat.max 64 (2 * String.length str))%nat).
  { unfold toAPIId, padEnd. rewrite !append_cons, append_nil.
    cbn [String.length].
    rewrite string_app_length, repeat_char_length, toHex_length. lia. }
  split; [exact H|]. split; intros Hlen; rewrite H; lia.
Qed.

(** Keys without a zero byte get distinct identifiers: the key is read back
    from its identifier. *)
Theorem toAPIId_injective s1 s2 :
  nul_free s1 -> nul_free s2 -> toAPIId s1 = toAPIId s2 -> s1 = s2.
Proof.
  assert (Hback : forall s, nul_free s -> fromAPIId (toAPIId s) = s).
  { intros s Hnf. unfold toAPIId, fromAPIId, padEnd. rewrite !append_cons, append_nil.
    rewrite toHex_length.
    destruct (Nat.le_gt_cases (String.length s) 32) as [Hle|Hgt].
    - replace (64 - 2 * String.length s)%nat
        with (2 * (32 - String.length s))%nat by lia.
      apply fromHex_toHex; [assumption|].
      rewrite string_app_length, toHex_length, repeat_char_length. lia.
    - replace (64 - 2 * String.length s)%nat with (2 * 0)%nat by lia.
      apply fromHex_toHex; [assumption|].
      rewrite string_app_length, toHex_length, repeat_char_length. lia. }
  intros H1 H2 Heq. rewrite <- (Hback s1 H1), <- (Hback s2 H2), Heq. reflexivity.
Qed.

(** A zero byte at the end of a key of fewer than 32 bytes is lost: the
    key and the key followed by a zero byte share one identifier. *)
Theorem toAPIId_trailing_zero_byte str :
  (String.length str < 32)%nat ->
  toAPIId (str ++ String Ascii.zero EmptyString) = toAPIId str.
Proof.
  intros Hlen. unfold toAPIId, padEnd. f_equal.
  rewrite !toHex_length, string_app_length. cbn [String.length].
  replace (64 - 2 * String.length str)%nat
    with (S (S (64 - 2 * (String.length str + 1)))) by lia.
  generalize (64 - 2 * (String.length str + 1))%nat as k. intros k.
  induction str as [|c s IH]; [reflexivity|].
  rewrite !append_cons. cbn [toHex String.length] in *. rewrite !append_cons.
  rewrite IH by lia. reflexivity.
Qed.

(** The two identifiers of the demo. *)
Lemma toAPIId_injective_witness :
  nul_free "demo/hello" /\ nul_free "random/number" /\
  API_ID_HELLO = "0x64656d6f2f68656c6c6f00000000000000000000000000000000000000000000"%string /\
  ("demo/hello" <> "random/number" -> API_ID_HELLO <> API_ID_RANDOM).
Proof.
  assert (H1 : nul_free "demo/hello") by (cbn; repeat split; discriminate).
  assert (H2 : nul_free "random/number") by (cbn; repeat split; discriminate).
  split; [exact H1|]. split; [exact H2|]. split; [reflexivity|].
  intros Hne Heq. apply Hne.
  exact (toAPIId_injective "demo/hello" "random/number" H1 H2 Heq).
Defined.

Lemma toAPIId_trailing_zero_byte_witness :
  (String.length "demo/hello" < 32)%nat /\
  toAPIId ("demo/hello" ++ String Ascii.zero EmptyString) = toAPIId "demo/hello".
Proof.
  assert (H : (String.length "demo/hello" < 32)%nat) by (cbn; lia).
  split; [exact H|]. exact (toAPIId_trailing_zero_byte "demo/hello" H).
Defined.
End ApiIdFacts.

(** * Properties of the backend *)
Module ServerFacts.
Import X402Billing Server.

Section Proofs.
Context {T : Type} `{!IERC20 T}.
Variable this : address.
Variable keccak256 : list Byte.byte -> bytes32.
Variable StringToNumber : string -> Gateway.Num.
Variable StringToBigInt : string -> option Z.
Variable isAddress : Gateway.Value -> bool.
Variable verifyTypedData :
  Gateway.Domain -> list (string * string) -> Gateway.Message -> Gateway.Value
  -> option string.
Variable bytes32_of : string -> bytes32.
Variable address_of : string -> option address.
Variable meter : address.
Variable PAYMENT_TOKEN_ADDRESS : address.

Local Abbreviation World := (X402Billing.World (T:=T)).
Local Abbreviation bill := (Server.bill this keccak256 bytes32_of address_of meter).
Local Abbreviation verify :=
  (Gateway.verifySignedRequest StringToNumber StringToBigInt isAddress verifyTypedData).

(** The receipt of a successful report holds its UsageReported event. *)
Lemma parse_after_report e a c u ref id (w w1 : World) :
  transact (reportUsage keccak256 e a c u ref) w = (Success id, w1) ->
  parse_usageId (drop (length (log w)) (log w1)) = Some id.
Proof.
  intros H. apply Ledger.reportUsage_effect in H. destruct H as (_ & _ & _ & ->).
  rewrite drop_app_length. reflexivity.
Qed.

Lemma address_of_value_string v ca :
  address_of_value address_of v = Some ca ->
  exists c, v = Gateway.JsString c /\ address_of c = Some ca.
Proof. destruct v; cbn; intros H; try discriminate. eauto. Qed.

Lemma run_cons tx txs (w : World) :
  run this keccak256 (tx :: txs) w
  = run this keccak256 txs (step this keccak256 w tx).
Proof. reflexivity. Qed.

Lemma run_snoc txs tx (w : World) :
  run this keccak256 (txs ++ [tx]) w
  = step this keccak256 (run this keccak256 txs w) tx.
Proof. rewrite Ledger.run_app. reflexivity. Qed.

(** What the billing block did to the ledger, by the way it ended. *)
Lemma bill_outcomes apiId prefix consumer requestId blk1 blk2 env (w : World) :
  let a := bytes32_of apiId in
  let ref := (prefix ++ requestId)%string in
  match bill apiId prefix consumer requestId blk1 blk2 env w with
  | (inl BadAddress, w') => w' = w
  | (inl (ReportReverted _), w') => w' = w
  | (inl ReportNotMined, w') => w' = w
  | (inl NoUsageId, _) => False
  | (inl (SettleReverted _), w') =>
      exists c ca, consumer = Gateway.JsString c /\ address_of c = Some ca /\
        let report := (tx_env meter blk1, CallReportUsage a ca 1 ref) in
        let id := keccak256 (encodePacked (tx_env meter blk1) a ca 1 ref) in
        let created :=
          UsageRecord.mk a ca 1 (ApiConfig.pricePerUnit (getApiConfig a w))
            (ApiConfig.paymentToken (getApiConfig a w)) UsageStatus.Reported ref in
        w' = run this keccak256 (report :: between env) w /\
        prepaidUnits a ca (step this keccak256 w report) = prepaidUnits a ca w - 1 /\
        (getUsage id w' = created \/
         getUsage id w' = UsageRecord.set_status UsageStatus.Settled created)
  | (inl SettleNotMined, w') =>
      exists c ca, consumer = Gateway.JsString c /\ address_of c = Some ca /\
        let report := (tx_env meter blk1, CallReportUsage a ca 1 ref) in
        let id := keccak256 (encodePacked (tx_env meter blk1) a ca 1 ref) in
        let created :=
          UsageRecord.mk a ca 1 (ApiConfig.pricePerUnit (getApiConfig a w))
            (ApiConfig.paymentToken (getApiConfig a w)) UsageStatus.Reported ref in
        w' = run this keccak256 (report :: between env) w /\
        prepaidUnits a ca (step this keccak256 w report) = prepaidUnits a ca w - 1 /\
        getUsage id w' = created
  | (inr usageId, w') =>
      exists c ca, consumer = Gateway.JsString c /\ address_of c = Some ca /\
        let report := (tx_env meter blk1, CallReportUsage a ca 1 ref) in
        let id := keccak256 (encodePacked (tx_env meter blk1) a ca 1 ref) in
        let settle := (tx_env meter blk2, CallSettleUsage id) in
        let created :=
          UsageRecord.mk a ca 1 (ApiConfig.pricePerUnit (getApiConfig a w))
            (ApiConfig.paymentToken (getApiConfig a w)) UsageStatus.Reported ref in
        usageId = id /\
        w' = run this keccak256 (report :: between env ++ [settle]) w /\
        prepaidUnits a ca (step this keccak256 w report) = prepaidUnits a ca w - 1 /\
        providerBalance a w' =
          providerBalance a (run this keccak256 (report :: between env) w)
            + ApiConfig.pricePerUnit (getApiConfig a w) /\
        getUsage id w' = UsageRecord.set_status UsageStatus.Settled created
  end.
Proof.
  cbv zeta. unfold Server.bill, send.
  destruct (address_of_value address_of consumer) as [ca|] eqn:Hca; [|reflexivity].
  destruct (address_of_value_string _ _ Hca) as (c & -> & Hc).
  destruct (transact (reportUsage _ _ _ _ _ _) w) as [[id|f] w1] eqn:Hrep;
    [|reflexivity].
  destruct (report_mined env); [|reflexivity].
  rewrite (parse_after_report _ _ _ _ _ _ _ _ Hrep).
  pose proof (Ledger.reportUsage_success _ _ _ _ _ _ _ _ _ Hrep)
    as (Hid & _ & _ & _ & Hpre & Hrec).
  pose proof (Ledger.reportUsage_is_step this _ _ _ _ _ _ _ _ _ Hrep) as Hstep.
  assert (Hlater : getUsage id (run this keccak256 (between env) w1) = getUsage id w1 \/
            getUsage id (run this keccak256 (between env) w1)
              = UsageRecord.set_status UsageStatus.Settled (getUsage id w1)).
  { destruct (Ledger.usage_run this keccak256 (between env) w1 id) as [H1 | [_ H1]];
      [rewrite Hrec; discriminate | auto | auto]. }
  destruct (transact (settleUsage _ id) _) as [[[]|f] w2] eqn:Hset.
  - pose proof (Ledger.settleUsage_success _ _ _ _ Hset) as (Hst & Hrev & Hrec2).
    assert (Hsame : getUsage id (run this keccak256 (between env) w1) = getUsage id w1).
    { destruct Hlater as [H1 | H1]; [exact H1|]. rewrite H1 in Hst. discriminate. }
    rewrite Hsame, Hrec in Hrev, Hrec2.
    cbn [UsageRecord.apiId UsageRecord.units UsageRecord.pricePerUnitSnapshot]
      in Hrev.
    destruct (settle_mined env).
    + exists c, ca. split; [reflexivity|]. split; [exact Hc|].
      rewrite !run_cons, Hstep, <- Hid. split; [reflexivity|].
      split; [|split; [exact Hpre|split; [|exact Hrec2]]].
      * rewrite run_snoc.
        symmetry. exact (Ledger.settleUsage_is_step this keccak256 _ _ _ _ Hset).
      * rewrite Hrev. lia.
    + exists c, ca. split; [reflexivity|]. split; [exact Hc|].
      rewrite !run_cons, Hstep, <- Hid. split; [reflexivity|].
      split; [exact Hpre|]. rewrite Hsame. exact Hrec.
  - exists c, ca. split; [reflexivity|]. split; [exact Hc|].
    rewrite !run_cons, Hstep, <- Hid. split; [reflexivity|].
    split; [exact Hpre|]. rewrite <- Hrec. exact Hlater.
Qed.

(** Every way [/demo/hello] can end, whatever else happens on the chain
    between its two transactions. A request that fails the check is
    answered 400 and changes nothing. A billing that fails before the
    report is mined (the consumer cannot be encoded, the report reverts or
    is not mined) changes nothing either. Once the report is mined the unit
    is debited and the usage recorded at the price of that moment, and the
    chain goes on with the transactions of the others. The answer is then
    the greeting, when the settlement is mined: the usage is settled, the
    revenue of the API has grown by exactly the price of the moment of the
    report, and one entry is added to the history. Or it is a 500 with the
    history as it was: when the settlement is not mined the usage stays
    reported; when it reverts the usage is reported still or was settled by
    somebody else. The receipt of a report always holds its event, and the
    endpoint never answers with a number. *)
Theorem demo_hello_outcomes dom now body requestId blk1 blk2 env ts (w : World) h :
  let a := bytes32_of ApiId.API_ID_HELLO in
  let ref := ("hello:" ++ requestId)%string in
  match demo_hello this keccak256 StringToNumber StringToBigInt isAddress
          verifyTypedData bytes32_of address_of meter dom now body requestId
          blk1 blk2 env ts (w, h) with
  | (VerificationFailed err, (w', h')) =>
      verify dom now body ApiId.API_ID_HELLO = inl err /\ w' = w /\ h' = h
  | (BillingFailed BadAddress, (w', h')) => w' = w /\ h' = h
  | (BillingFailed (ReportReverted _), (w', h')) => w' = w /\ h' = h
  | (BillingFailed ReportNotMined, (w', h')) => w' = w /\ h' = h
  | (BillingFailed NoUsageId, _) => False
  | (BillingFailed (SettleReverted _), (w', h')) =>
      h' = h /\
      exists c ca, Gateway.field body "consumer" = Gateway.JsString c /\
        address_of c = Some ca /\
        let report := (tx_env meter blk1, CallReportUsage a ca 1 ref) in
        let id := keccak256 (encodePacked (tx_env meter blk1) a ca 1 ref) in
        let created :=
          UsageRecord.mk a ca 1 (ApiConfig.pricePerUnit (getApiConfig a w))
            (ApiConfig.paymentToken (getApiConfig a w)) UsageStatus.Reported ref in
        w' = run this keccak256 (report :: between env) w /\
        prepaidUnits a ca (step this keccak256 w report) = prepaidUnits a ca w - 1 /\
        (getUsage id w' = created \/
         getUsage id w' = UsageRecord.set_status UsageStatus.Settled created)
  | (BillingFailed SettleNotMined, (w', h')) =>
      h' = h /\
      exists c ca, Gateway.field body "consumer" = Gateway.JsString c /\
        address_of c = Some ca /\
        let report := (tx_env meter blk1, CallReportUsage a ca 1 ref) in
        let id := keccak256 (encodePacked (tx_env meter blk1) a ca 1 ref) in
        let created :=
          UsageRecord.mk a ca 1 (ApiConfig.pricePerUnit (getApiConfig a w))
            (ApiConfig.paymentToken (getApiConfig a w)) UsageStatus.Reported ref in
        w' = run this keccak256 (report :: between env) w /\
        prepaidUnits a ca (step this keccak256 w report) = prepaidUnits a ca w - 1 /\
        getUsage id w' = created
  | (Hello _ rid who billing, (w', h')) =>
      exists c ca, Gateway.field body "consumer" = Gateway.JsString c /\
        who = Gateway.JsString c /\ address_of c = Some ca /\ rid = requestId /\
        let report := (tx_env meter blk1, CallReportUsage a ca 1 ref) in
        let id := keccak256 (encodePacked (tx_env meter blk1) a ca 1 ref) in
        let settle := (tx_env meter blk2, CallSettleUsage id) in
        let created :=
          UsageRecord.mk a ca 1 (ApiConfig.pricePerUnit (getApiConfig a w))
            (ApiConfig.paymentToken (getApiConfig a w)) UsageStatus.Reported ref in
        billing = mkBilling ApiId.API_ID_HELLO 1 id /\
        w' = run this keccak256 (report :: between env ++ [settle]) w /\
        prepaidUnits a ca (step this keccak256 w report) = prepaidUnits a ca w - 1 /\
        providerBalance a w' =
          providerBalance a (run this keccak256 (report :: between env) w)
            + ApiConfig.pricePerUnit (getApiConfig a w) /\
        getUsage id w' = UsageRecord.set_status UsageStatus.Settled created /\
        h' = h ++ [mkUsage id ApiId.API_ID_HELLO c 1 ts requestId None]
  | (RandomNumber _ _, _) => False
  end.
Proof.
  cbv zeta. unfold demo_hello. cbn [fst snd].
  destruct (Gateway.verifySignedRequest _ _ _ _ dom now body ApiId.API_ID_HELLO)
    as [err|req] eqn:Hv; [auto|].
  apply GatewayFacts.verify_inr in Hv. destruct Hv as (-> & _).
  cbn [Gateway.consumer].
  pose proof (bill_outcomes ApiId.API_ID_HELLO "hello:"
                (Gateway.field body "consumer") requestId blk1 blk2 env w) as Hb.
  cbv zeta in Hb.
  destruct (bill ApiId.API_ID_HELLO "hello:" (Gateway.field body "consumer")
              requestId blk1 blk2 env w) as [[[ |f| | |f| ]|id] w'].
  - auto.
  - auto.
  - auto.
  - exact Hb.
  - split; [reflexivity|]. exact Hb.
  - split; [reflexivity|]. exact Hb.
  - destruct Hb as (c & ca & Hc & Hca & Hid & Hw & Hpre & Hrev & Hrec).
    rewrite Hc. exists c, ca. rewrite Hid. repeat split; auto.
Qed.

(** [/random/number] ends in the same ways, with the number drawn in the
    answer and in the history entry. *)
Theorem random_number_outcomes dom now body requestId n blk1 blk2 env ts
    (w : World) h :
  let a := bytes32_of ApiId.API_ID_RANDOM in
  let ref := ("random:" ++ requestId)%string in
  match random_number this keccak256 StringToNumber StringToBigInt isAddress
          verifyTypedData bytes32_of address_of meter dom now body requestId n
          blk1 blk2 env ts (w, h) with
  | (VerificationFailed err, (w', h')) =>
      verify dom now body ApiId.API_ID_RANDOM = inl err /\ w' = w /\ h' = h
  | (BillingFailed BadAddress, (w', h')) => w' = w /\ h' = h
  | (BillingFailed (ReportReverted _), (w', h')) => w' = w /\ h' = h
  | (BillingFailed ReportNotMined, (w', h')) => w' = w /\ h' = h
  | (BillingFailed NoUsageId, _) => False
  | (BillingFailed (SettleReverted _), (w', h')) =>
      h' = h /\
      exists c ca, Gateway.field body "consumer" = Gateway.JsString c /\
        address_of c = Some ca /\
        let report := (tx_env meter blk1, CallReportUsage a ca 1 ref) in
        let id := keccak256 (encodePacked (tx_env meter blk1) a ca 1 ref) in
        let created :=
          UsageRecord.mk a ca 1 (ApiConfig.pricePerUnit (getApiConfig a w))
            (ApiConfig.paymentToken (getApiConfig a w)) UsageStatus.Reported ref in
        w' = run this keccak256 (report :: between env) w /\
        prepaidUnits a ca (step this keccak256 w report) = prepaidUnits a ca w - 1 /\
        (getUsage id w' = created \/
         getUsage id w' = UsageRecord.set_status UsageStatus.Settled created)
  | (BillingFailed SettleNotMined, (w', h')) =>
      h' = h /\
      exists c ca, Gateway.field body "consumer" = Gateway.JsString c /\
        address_of c = Some ca /\
        let report := (tx_env meter blk1, CallReportUsage a ca 1 ref) in
        let id := keccak256 (encodePacked (tx_env meter blk1) a ca 1 ref) in
        let created :=
          UsageRecord.mk a ca 1 (ApiConfig.pricePerUnit (getApiConfig a w))
            (ApiConfig.paymentToken (getApiConfig a w)) UsageStatus.Reported ref in
        w' = run this keccak256 (report :: between env) w /\
        prepaidUnits a ca (step this keccak256 w report) = prepaidUnits a ca w - 1 /\
        getUsage id w' = created
  | (RandomNumber number billing, (w', h')) =>
      exists c ca, Gateway.field body "consumer" = Gateway.JsString c /\
        address_of c = Some ca /\ number = n /\
        let report := (tx_env meter blk1, CallReportUsage a ca 1 ref) in
        let id := keccak256 (encodePacked (tx_env meter blk1) a ca 1 ref) in
        let settle := (tx_env meter blk2, CallSettleUsage id) in
        let created :=
          UsageRecord.mk a ca 1 (ApiConfig.pricePerUnit (getApiConfig a w))
            (ApiConfig.paymentToken (getApiConfig a w)) UsageStatus.Reported ref in
        billing = mkBilling ApiId.API_ID_RANDOM 1 id /\
        w' = run this keccak256 (report :: between env ++ [settle]) w /\
        prepaidUnits a ca (step this keccak256 w report) = prepaidUnits a ca w - 1 /\
        providerBalance a w' =
          providerBalance a (run this keccak256 (report :: between env) w)
            + ApiConfig.pricePerUnit (getApiConfig a w) /\
        getUsage id w' = UsageRecord.set_status UsageStatus.Settled created /\
        h' = h ++ [mkUsage id ApiId.API_ID_RANDOM c 1 ts requestId (Some n)]
  | (Hello _ _ _ _, _) => False
  end.
Proof.
  cbv zeta. unfold random_number. cbn [fst snd].
  destruct (Gateway.verifySignedRequest _ _ _ _ dom now body ApiId.API_ID_RANDOM)
    as [err|req] eqn:Hv; [auto|].
  apply GatewayFacts.verify_inr in Hv. destruct Hv as (-> & _).
  cbn [Gateway.consumer].
  pose proof (bill_outcomes ApiId.API_ID_RANDOM "random:"
                (Gateway.field body "consumer") requestId blk1 blk2 env w) as Hb.
  cbv zeta in Hb.
  destruct (bill ApiId.API_ID_RANDOM "random:" (Gateway.field body "consumer")
              requestId blk1 blk2 env w) as [[[ |f| | |f| ]|id] w'].
  - auto.
  - auto.
  - auto.
  - exact Hb.
  - split; [reflexivity|]. exact Hb.
  - split; [reflexivity|]. exact Hb.
  - destruct Hb as (c & ca & Hc & Hca & Hid & Hw & Hpre & Hrev & Hrec).
    rewrite Hc. exists c, ca. rewrite Hid. repeat split; auto.
Qed.

(** A verified request of a consumer who holds a unit of a registered API
    is served when its two transactions are mined and nobody settles the
    usage in between: short of an overflow of the revenue balance, and when
    the reference was not used in the same block, [/demo/hello] answers
    with the greeting and the usage identifier, whatever else the others
    do between the report and the settlement; the chain is then the one
    that the report, their transactions and the settlement produce. *)
Theorem demo_hello_serves dom now body requestId blk1 blk2 env ts (w : World) h
    req c ca :
  let a := bytes32_of ApiId.API_ID_HELLO in
  let ref := ("hello:" ++ requestId)%string in
  let id := keccak256 (encodePacked (tx_env meter blk1) a ca 1 ref) in
  let report := (tx_env meter blk1, CallReportUsage a ca 1 ref) in
  let settle := (tx_env meter blk2, CallSettleUsage id) in
  let wb := run this keccak256 (report :: between env) w in
  verify dom now body ApiId.API_ID_HELLO = inr req ->
  Gateway.consumer req = Gateway.JsString c -> address_of c = Some ca ->
  ApiConfig.provider (getApiConfig a w) <> 0 ->
  1 <= prepaidUnits a ca w ->
  UsageRecord.status (getUsage id w) = UsageStatus.None ->
  report_mined env = true -> settle_mined env = true ->
  UsageRecord.status (getUsage id wb) = UsageStatus.Reported ->
  0 <= ApiConfig.pricePerUnit (getApiConfig a w) ->
  0 <= providerBalance a wb ->
  providerBalance a wb + ApiConfig.pricePerUnit (getApiConfig a w) <= MAX_UINT256 ->
  demo_hello this keccak256 StringToNumber StringToBigInt isAddress verifyTypedData
    bytes32_of address_of meter dom now body requestId blk1 blk2 env ts (w, h) =
  (Hello "Hello from X402 demo API (EIP-712 secured)" requestId
     (Gateway.JsString c) (mkBilling ApiId.API_ID_HELLO 1 id),
   (run this keccak256 (report :: between env ++ [settle]) w,
    h ++ [mkUsage id ApiId.API_ID_HELLO c 1 ts requestId None])).
Proof.
  cbv zeta. intros Hv Hc Hca Hp Hpre Hfree Hm1 Hm2 Hstill Hprice Hbal Hmax.
  unfold demo_hello, Server.bill, send. cbn [fst snd]. rewrite Hv, Hc.
  cbn [address_of_value]. rewrite Hca.
  destruct (Ledger.reportUsage_succeeds keccak256 (tx_env meter blk1)
              (bytes32_of ApiId.API_ID_HELLO) ca 1 ("hello:" ++ requestId)%string w)
    as (w1 & Hrep); [assumption | lia | lia | assumption |].
  rewrite Hrep, Hm1. rewrite (parse_after_report _ _ _ _ _ _ _ _ Hrep).
  pose proof (Ledger.reportUsage_success _ _ _ _ _ _ _ _ _ Hrep)
    as (_ & _ & _ & _ & _ & Hrec).
  pose proof (Ledger.reportUsage_effect _ _ _ _ _ _ _ _ _ Hrep) as (Hapis & _ & _ & _).
  pose proof (Ledger.reportUsage_is_step this _ _ _ _ _ _ _ _ _ Hrep) as Hstep.
  rewrite !run_cons, Hstep in *.
  set (id := keccak256 _) in *.
  assert (Hsame : getUsage id (run this keccak256 (between env) w1) = getUsage id w1).
  { destruct (Ledger.usage_run this keccak256 (between env) w1 id) as [H1 | [_ H1]];
      [rewrite Hrec; discriminate | exact H1 |].
    rewrite H1 in Hstill. discriminate. }
  assert (Hreg : ApiConfig.provider (getApiConfig (bytes32_of ApiId.API_ID_HELLO) w1)
                 <> 0).
  { unfold getApiConfig, apis. rewrite Hapis. exact Hp. }
  destruct (Ledger.settleUsage_succeeds (tx_env meter blk2) id
              (run this keccak256 (between env) w1)) as (w2 & Hset).
  - rewrite Hsame, Hrec. reflexivity.
  - rewrite Hsame, Hrec. cbn [UsageRecord.apiId].
    destruct (Ledger.provider_token_run this keccak256 (between env) w1 _ Hreg)
      as [-> _]. exact Hreg.
  - rewrite Hsame, Hrec. cbn [UsageRecord.units UsageRecord.pricePerUnitSnapshot]. lia.
  - rewrite Hsame, Hrec. cbn [UsageRecord.apiId UsageRecord.units
                               UsageRecord.pricePerUnitSnapshot]. lia.
  - rewrite Hset, Hm2. rewrite run_snoc.
    rewrite (Ledger.settleUsage_is_step this keccak256 _ _ _ _ Hset). reflexivity.
Qed.

(** No units, no service: a verified request of a consumer without a
    prepaid unit of the (registered) API is answered 500, and neither the
    ledger nor the history changes. *)
Theorem demo_hello_without_units dom now body requestId blk1 blk2 env ts
    (w : World) h req c ca :
  let a := bytes32_of ApiId.API_ID_HELLO in
  verify dom now body ApiId.API_ID_HELLO = inr req ->
  Gateway.consumer req = Gateway.JsString c -> address_of c = Some ca ->
  ApiConfig.provider (getApiConfig a w) <> 0 ->
  prepaidUnits a ca w < 1 ->
  demo_hello this keccak256 StringToNumber StringToBigInt isAddress verifyTypedData
    bytes32_of address_of meter dom now body requestId blk1 blk2 env ts (w, h) =
  (BillingFailed (ReportReverted (Error "Insufficient prepaid units")), (w, h)).
Proof.
  cbv zeta. intros Hv Hc Hca Hp Hpre.
  unfold demo_hello, Server.bill, send. cbn [fst snd]. rewrite Hv, Hc.
  cbn [address_of_value]. rewrite Hca.
  rewrite Ledger.reportUsage_insufficient; [reflexivity | assumption | lia | assumption].
Qed.

(** *** The withdrawal loop *)



(** *** The registration at startup *)







End Proofs.

Import ServerCases.

(** The run of the examples. Startup registers both APIs; the first call
    is served, leaving 4 units, a revenue of 10^18 and one entry in the
    history. The same call is answered 500 when its settlement is not
    mined, the unit being debited and the usage left reported, and when
    somebody else settles the usage first, the revenue being credited all
    the same. A withdrawal of the revenue earned is answered 500 and moves
    nothing. A startup whose second registration is not mined stops with
    the first API registered alone. *)
Example backend_runs :
  Server.ensureApisRegistered this MockToken.hash bytes32_of meter token (blk 1) [] w0
    = (inr tt, w_started) /\
  ApiConfig.provider (getApiConfig a_hello w_started) = meter /\
  ApiConfig.provider (getApiConfig a_random w_started) = meter /\
  prepaidUnits a_hello consumerC w_prepaid = 5 /\
  fst served = Hello "Hello from X402 demo API (EIP-712 secured)" "9f86d081884c7d65"
                 (Gateway.JsString Gateway.Examples.consumer_addr)
                 (mkBilling ApiId.API_ID_HELLO 1 usage_hello) /\
  prepaidUnits a_hello consumerC (fst (snd served)) = 4 /\
  providerBalance a_hello (fst (snd served)) = 10 ^ 18 /\
  length (snd (snd served)) = 1%nat /\
  (let r := hello Gateway.Examples.now_ms Gateway.Examples.body_fresh
              "9f86d081884c7d65" (blk 3) (blk 4) lost_settlement 1700000000900
              (w_prepaid, []) in
   fst r = BillingFailed SettleNotMined /\
   prepaidUnits a_hello consumerC (fst (snd r)) = 4 /\
   UsageRecord.status (getUsage usage_hello (fst (snd r))) = UsageStatus.Reported /\
   providerBalance a_hello (fst (snd r)) = 0 /\
   snd (snd r) = []) /\
  (let r := hello Gateway.Examples.now_ms Gateway.Examples.body_fresh
              "9f86d081884c7d65" (blk 3) (blk 5) overtaken 1700000000900
              (w_prepaid, []) in
   fst r = BillingFailed (SettleReverted (Error "Usage not reportable/settleable")) /\
   UsageRecord.status (getUsage usage_hello (fst (snd r))) = UsageStatus.Settled /\
   providerBalance a_hello (fst (snd r)) = 10 ^ 18 /\
   snd (snd r) = []) /\
  (let r := Server.provider_withdraw this Gateway.Demo.isAddress bytes32_of address_of
              meter None (blk 5) (fst (snd served)) in
   fst r = WithdrawFailed NotAFunction /\
   providerBalance a_hello (snd r) = 10 ^ 18) /\
  (let r := Server.ensureApisRegistered this MockToken.hash bytes32_of meter token
              (blk 1) second_lost w0 in
   fst r = inl NotMined /\
   ApiConfig.provider (getApiConfig a_hello (snd r)) = meter /\
   ApiConfig.provider (getApiConfig a_random (snd r)) = 0).
Proof.
  cbv zeta.
  repeat match goal with |- _ /\ _ => split end; vm_compute; reflexivity.
Qed.

(** The call of the examples is served at the price of the moment of the
    report, although the provider doubles the price before the
    settlement. *)
Lemma demo_hello_serves_witness :
  UsageRecord.status
    (getUsage
       (MockToken.hash
          (encodePacked (tx_env meter (blk 3)) (bytes32_of ApiId.API_ID_HELLO)
             consumerC 1 ("hello:" ++ "9f86d081884c7d65")%string))
       (run this MockToken.hash
          ((tx_env meter (blk 3),
            CallReportUsage (bytes32_of ApiId.API_ID_HELLO) consumerC 1
              ("hello:" ++ "9f86d081884c7d65")%string) :: between busy)
          w_prepaid))
    = UsageStatus.Reported /\
  Server.demo_hello this MockToken.hash Gateway.Demo.StringToNumber
    Gateway.Demo.StringToBigInt Gateway.Demo.isAddress Gateway.Demo.verifyTypedData
    bytes32_of address_of meter Gateway.Examples.domain Gateway.Examples.now_ms
    Gateway.Examples.body_fresh "9f86d081884c7d65" (blk 3) (blk 5) busy
    1700000000900 (w_prepaid, []) =
  (Hello "Hello from X402 demo API (EIP-712 secured)" "9f86d081884c7d65"
     (Gateway.JsString Gateway.Examples.consumer_addr)
     (mkBilling ApiId.API_ID_HELLO 1
        (MockToken.hash
           (encodePacked (tx_env meter (blk 3)) (bytes32_of ApiId.API_ID_HELLO)
              consumerC 1 ("hello:" ++ "9f86d081884c7d65")%string))),
   (run this MockToken.hash
      ((tx_env meter (blk 3),
        CallReportUsage (bytes32_of ApiId.API_ID_HELLO) consumerC 1
          ("hello:" ++ "9f86d081884c7d65")%string)
       :: between busy
          ++ [(tx_env meter (blk 5),
               CallSettleUsage
                 (MockToken.hash
                    (encodePacked (tx_env meter (blk 3))
                       (bytes32_of ApiId.API_ID_HELLO) consumerC 1
                       ("hello:" ++ "9f86d081884c7d65")%string)))])
      w_prepaid,
    [] ++ [mkUsage
             (MockToken.hash
                (encodePacked (tx_env meter (blk 3))
                   (bytes32_of ApiId.API_ID_HELLO) consumerC 1
                   ("hello:" ++ "9f86d081884c7d65")%string))
             ApiId.API_ID_HELLO Gateway.Examples.consumer_addr 1
             1700000000900 "9f86d081884c7d65" None])).
Proof.
  assert (Hstill :
    UsageRecord.status
      (getUsage
         (MockToken.hash
            (encodePacked (tx_env meter (blk 3)) (bytes32_of ApiId.API_ID_HELLO)
               consumerC 1 ("hello:" ++ "9f86d081884c7d65")%string))
         (run this MockToken.hash
            ((tx_env meter (blk 3),
              CallReportUsage (bytes32_of ApiId.API_ID_HELLO) consumerC 1
                ("hello:" ++ "9f86d081884c7d65")%string) :: between busy)
            w_prepaid))
      = UsageStatus.Reported) by (vm_compute; reflexivity).
  split; [exact Hstill|].
  apply (demo_hello_serves this MockToken.hash Gateway.Demo.StringToNumber
           Gateway.Demo.StringToBigInt Gateway.Demo.isAddress
           Gateway.Demo.verifyTypedData bytes32_of address_of meter
           Gateway.Examples.domain Gateway.Examples.now_ms Gateway.Examples.body_fresh
           "9f86d081884c7d65" (blk 3) (blk 5) busy 1700000000900 w_prepaid []
           (Gateway.mkSignedRequest (Gateway.JsString Gateway.Examples.consumer_addr)
              (Gateway.JsNumber (Gateway.Finite 1))
              (Gateway.JsNumber (Gateway.Finite (inject_Z 1800000000)))
              (Gateway.JsString Gateway.Examples.consumer_addr))
           Gateway.Examples.consumer_addr consumerC).
  - vm_compute. reflexivity.
  - reflexivity.
  - vm_compute. reflexivity.
  - vm_compute. discriminate.
  - vm_compute. discriminate.
  - vm_compute. reflexivity.
  - reflexivity.
  - reflexivity.
  - exact Hstill.
  - vm_compute. discriminate.
  - vm_compute. discriminate.
  - vm_compute. discriminate.
Defined.

(** Before the prepayment the same call is refused, and nothing changes. *)
Lemma demo_hello_without_units_witness :
  prepaidUnits (bytes32_of ApiId.API_ID_HELLO) consumerC w_started < 1 /\
  Server.demo_hello this MockToken.hash Gateway.Demo.StringToNumber
    Gateway.Demo.StringToBigInt Gateway.Demo.isAddress Gateway.Demo.verifyTypedData
    bytes32_of address_of meter Gateway.Examples.domain Gateway.Examples.now_ms
    Gateway.Examples.body_fresh "9f86d081884c7d65" (blk 3) (blk 4) calm
    1700000000900 (w_started, []) =
  (BillingFailed (ReportReverted (Error "Insufficient prepaid units")), (w_started, [])).
Proof.
  assert (Hpre : prepaidUnits (bytes32_of ApiId.API_ID_HELLO) consumerC w_started < 1)
    by (vm_compute; reflexivity).
  split; [exact Hpre|].
  apply (demo_hello_without_units this MockToken.hash Gateway.Demo.StringToNumber
           Gateway.Demo.StringToBigInt Gateway.Demo.isAddress
           Gateway.Demo.verifyTypedData bytes32_of address_of meter
           Gateway.Examples.domain Gateway.Examples.now_ms Gateway.Examples.body_fresh
           "9f86d081884c7d65" (blk 3) (blk 4) calm 1700000000900 w_started []
           (Gateway.mkSignedRequest (Gateway.JsString Gateway.Examples.consumer_addr)
              (Gateway.JsNumber (Gateway.Finite 1))
              (Gateway.JsNumber (Gateway.Finite (inject_Z 1800000000)))
              (Gateway.JsString Gateway.Examples.consumer_addr))
           Gateway.Examples.consumer_addr consumerC).
  - vm_compute. reflexivity.
  - reflexivity.
  - vm_compute. reflexivity.
  - vm_compute. discriminate.
  - exact Hpre.
Defined.


End ServerFacts.
